(** * FFmerge: the merge workflow of [ffmerge_gui.py]

    A shallow embedding of the non-graphical logic of [ffmerge_gui.py]
    (extension tests, [which_ffmpeg], [timestamp], [App.merge_now],
    [App.load_settings], [App.save_outdir]) and the properties the
    specification states about it.

    Conventions.
    - A Python [str] is a [string], one character per code point; the
      transcriptions of [str.strip], [str.lower] and [str.isspace] are exact
      for code points below 256.  The Chinese literals of the dialogs are
      kept as they stand in the source file; they are only handed to the
      message box and compared as wholes.
    - What the program reads from its surroundings (file system, [PATH],
      clock, the directory of the script) is a [world] value; what it asks of
      the platform ([os.name], [os.pathsep], [os.path.join], ...) is the
      class [OsPath]; the JSON library is the class [JsonLib]; the external
      program is a section variable.
    - A Python exception is a value of [res]: [Raise e] instead of [Ok v]. *)

From Stdlib Require Import ZArith Ascii String List Bool Lia.
From stdpp Require Import base option list strings gmap.

Local Open Scope string_scope.
Local Open Scope list_scope.

(** ** Python strings *)

Module Py.

(** The double quote, written by its code. *)
Definition dquote : ascii := "034"%char.
Definition newline : ascii := "010"%char.

(** [c in chars] for a one-character [c]. *)
Fixpoint chr_in (c : ascii) (chars : string) : bool :=
  match chars with
  | EmptyString => false
  | String d rest => if Ascii.eqb c d then true else chr_in c rest
  end.

(** [str.lstrip]: drop the leading characters that satisfy [f]. *)
Fixpoint lstrip_by (f : ascii -> bool) (s : string) : string :=
  match s with
  | EmptyString => EmptyString
  | String c rest => if f c then lstrip_by f rest else s
  end.

(** [str.rstrip]: drop the trailing characters that satisfy [f]. *)
Fixpoint rstrip_by (f : ascii -> bool) (s : string) : string :=
  match s with
  | EmptyString => EmptyString
  | String c rest =>
      match rstrip_by f rest with
      | EmptyString => if f c then EmptyString else String c EmptyString
      | r => String c r
      end
  end.

Definition strip_by (f : ascii -> bool) (s : string) : string :=
  rstrip_by f (lstrip_by f s).

(** [s.strip(chars)] *)
Definition strip_chars (chars : string) (s : string) : string :=
  strip_by (fun c => chr_in c chars) s.

(** [str.isspace] on one character (code points below 256):
    TAB LF VT FF CR, FS GS RS US, SPACE, NEL and NBSP. *)
Definition isspace (c : ascii) : bool :=
  let n := nat_of_ascii c in
  ((9 <=? n)%nat && (n <=? 13)%nat) || ((28 <=? n)%nat && (n <=? 32)%nat)
  || (n =? 133)%nat || (n =? 160)%nat.

(** [s.strip()] *)
Definition strip (s : string) : string := strip_by isspace s.

(** [str.lower] on one character (code points below 256): A-Z, and the
    Latin-1 capitals U+00C0..U+00DE except the multiplication sign U+00D7. *)
Definition lower_char (c : ascii) : ascii :=
  let n := nat_of_ascii c in
  if ((65 <=? n)%nat && (n <=? 90)%nat)
     || ((192 <=? n)%nat && (n <=? 222)%nat && negb (n =? 215)%nat)
  then ascii_of_nat (n + 32) else c.

Fixpoint lower (s : string) : string :=
  match s with
  | EmptyString => EmptyString
  | String c rest => String (lower_char c) (lower rest)
  end.

(** [s.split(sep)] for a separator of one character. *)
Fixpoint split (sep : ascii) (s : string) : list string :=
  match s with
  | EmptyString => [EmptyString]
  | String c rest =>
      if Ascii.eqb c sep then EmptyString :: split sep rest
      else match split sep rest with
           | h :: t => String c h :: t
           | [] => [String c EmptyString]
           end
  end.

(** Every character of [s] satisfies [f]. *)
Fixpoint all_chars (f : ascii -> bool) (s : string) : bool :=
  match s with
  | EmptyString => true
  | String c rest => f c && all_chars f rest
  end.

(** The first, the last character of [s] satisfies [f]. *)
Definition starts_by (f : ascii -> bool) (s : string) : bool :=
  match s with
  | EmptyString => false
  | String c _ => f c
  end.

Fixpoint ends_by (f : ascii -> bool) (s : string) : bool :=
  match s with
  | EmptyString => false
  | String c EmptyString => f c
  | String _ rest => ends_by f rest
  end.

(** [sep.join(parts)] for a separator of one character. *)
Fixpoint join (sep : ascii) (parts : list string) : string :=
  match parts with
  | [] => EmptyString
  | [x] => x
  | x :: rest => x ++ String sep (join sep rest)
  end.

(** Truth value of a [str]: [not s] is [negb (truthy s)]. *)
Definition truthy (s : string) : bool :=
  match s with EmptyString => false | _ => true end.

(** [a or b] on strings. *)
Definition or_ (a b : string) : string := if truthy a then a else b.

(** [s.rfind(c)] for a one-character [c]: the highest index, or -1. *)
Fixpoint rfind (c : ascii) (s : string) : Z :=
  match s with
  | EmptyString => (-1)%Z
  | String d rest =>
      let r := rfind c rest in
      if (0 <=? r)%Z then (r + 1)%Z
      else if Ascii.eqb d c then 0%Z else (-1)%Z
  end.

(** The slices [s[:i]] and [s[i:]] for [0 <= i]. *)
Fixpoint take (i : nat) (s : string) : string :=
  match i, s with
  | S j, String c rest => String c (take j rest)
  | _, _ => EmptyString
  end.

Fixpoint drop (i : nat) (s : string) : string :=
  match i, s with
  | S j, String _ rest => drop j rest
  | _, _ => s
  end.

End Py.

(** ** Exceptions *)

Inductive exn_class :=
  | FileNotFoundError
  | PermissionError
  | IsADirectoryError
  | OSError
  | ValueError.

(** An exception object: its class and [str(e)]. Every class above derives
    from [Exception]. *)
Record exn := Exn { exn_cls : exn_class; exn_str : string }.

Inductive res (A : Type) :=
  | Ok (v : A)
  | Raise (e : exn).
Arguments Ok {A} v.
Arguments Raise {A} e.

(** Sequencing: an exception ends the rest of the block ([x ← m; k]). *)
#[export] Instance res_bind : MBind res := fun A B k m =>
  match m with
  | Ok v => k v
  | Raise e => Raise e
  end.

(** [try: body / except Exception: handler] *)
Definition try_except {A : Type} (body : res A) (handler : exn -> res A) : res A :=
  match body with
  | Ok v => Ok v
  | Raise e => handler e
  end.

Definition is_FileNotFoundError (e : exn) : bool :=
  match exn_cls e with FileNotFoundError => true | _ => false end.

(** ** The platform: [os.name], [os.pathsep] and [os.path] *)

Class OsPath := {
  os_name : string;
  pathsep : ascii;
  sep : ascii;
  altsep : option ascii;
  (** [os.path.join(a, b)] *)
  path_join : string -> string -> string
}.

(** [posixpath.join(a, b)] *)
Definition posix_join (a b : string) : string :=
  match b with
  | String "/" _ => b
  | _ =>
      if negb (Py.truthy a) || Py.ends_by (fun c => Ascii.eqb c "/") a
      then a ++ b
      else a ++ "/" ++ b
  end.

Definition posixpath : OsPath :=
  {| os_name := "posix"; pathsep := ":"; sep := "/"; altsep := None;
     path_join := posix_join |}.

(** The loop of [genericpath._splitext] that skips leading dots: from index
    [i], at most [fuel] characters; [true] when one of them is not a dot. *)
Fixpoint has_non_dot (fuel : nat) (i : nat) (p : string) : bool :=
  match fuel with
  | O => false
  | S k =>
      match String.get i p with
      | Some "."%char => has_non_dot k (S i) p
      | _ => true
      end
  end.

(** [os.path.splitext(p)], that is [genericpath._splitext(p, sep, altsep, '.')]. *)
Definition splitext {os : OsPath} (p : string) : string * string :=
  let sepIndex :=
    match altsep with
    | Some a => Z.max (Py.rfind sep p) (Py.rfind a p)
    | None => Py.rfind sep p
    end in
  let dotIndex := Py.rfind "." p in
  if (sepIndex <? dotIndex)%Z
     && has_non_dot (Z.to_nat (dotIndex - (sepIndex + 1))) (Z.to_nat (sepIndex + 1)) p
  then (Py.take (Z.to_nat dotIndex) p, Py.drop (Z.to_nat dotIndex) p)
  else (p, EmptyString).

(** ** The surroundings of the program *)

(** What [os.stat] finds at a path: a regular file with its contents and
    whether this process may read and write it, or a directory. *)
Inductive node :=
  | File (data : string) (readable writable : bool)
  | Dir (st_size : N).

(** [datetime.datetime], to the second. *)
Record datetime := {
  year : Z; month : Z; day : Z;
  hour : Z; minute : Z; second : Z
}.

Record world := {
  environ : gmap string string;
  (** [os.path.dirname(os.path.abspath(sys.argv[0]))] *)
  script_dir : string;
  (** what [datetime.now()] returns *)
  clock : datetime;
  fs : gmap string node;
  (** whether [open(p, 'w')] may create [p] where nothing exists *)
  creatable : string -> bool
}.

Definition set_fs (w : world) (m : gmap string node) : world :=
  {| environ := environ w; script_dir := script_dir w; clock := clock w;
     fs := m; creatable := creatable w |}.

Definition isfile (w : world) (p : string) : bool :=
  match fs w !! p with Some (File _ _ _) => true | _ => false end.

Definition isdir (w : world) (p : string) : bool :=
  match fs w !! p with Some (Dir _) => true | _ => false end.

Definition exists_ (w : world) (p : string) : bool :=
  match fs w !! p with Some _ => true | None => false end.

(** [os.path.getsize(p)] *)
Definition getsize (w : world) (p : string) : res N :=
  match fs w !! p with
  | Some (File data _ _) => Ok (N.of_nat (String.length data))
  | Some (Dir n) => Ok n
  | None => Raise (Exn FileNotFoundError p)
  end.

(** [open(p, 'r', encoding='utf-8')] followed by reading the whole file. *)
Definition read_file (w : world) (p : string) : res string :=
  match fs w !! p with
  | Some (File data true _) => Ok data
  | Some (File _ false _) => Raise (Exn PermissionError p)
  | Some (Dir _) => Raise (Exn IsADirectoryError p)
  | None => Raise (Exn FileNotFoundError p)
  end.

(** [open(p, 'w', encoding='utf-8')] followed by writing [data]: the file is
    replaced. *)
Definition write_file (w : world) (p : string) (data : string) : res world :=
  match fs w !! p with
  | Some (File _ r true) => Ok (set_fs w (<[p := File data r true]> (fs w)))
  | Some (File _ _ false) => Raise (Exn PermissionError p)
  | Some (Dir _) => Raise (Exn IsADirectoryError p)
  | None =>
      if creatable w p then Ok (set_fs w (<[p := File data true true]> (fs w)))
      else Raise (Exn FileNotFoundError p)
  end.

(** ** [json] values *)

#[local] Set Warnings "-register-all".

Inductive json :=
  | JNull
  | JBool (b : bool)
  | JInt (n : Z)
  | JFloat (repr : string)
  | JStr (s : string)
  | JList (l : list json)
  | JDict (d : gmap string json).

(** [json.dump(v, f, ensure_ascii=False, indent=2)] into a file opened with
    [encoding='utf-8'], and [json.load(f)] from such a file. *)
Class JsonLib := {
  json_dump : json -> string;
  json_load : string -> res json
}.

(** ** Module constants and helpers of [ffmerge_gui.py] *)

Definition AUDIO_EXTS : gset string :=
  {[ ".aac"; ".m4a"; ".mp3"; ".wav"; ".flac"; ".ogg"; ".opus"; ".wma"; ".ac3" ]}.

Definition VIDEO_EXTS : gset string :=
  {[ ".mp4"; ".mkv"; ".mov"; ".webm"; ".m4v"; ".avi"; ".ts" ]}.

(** The decimal digit of the units of [n], ['0'] to ['9']. *)
Definition digit (n : Z) : ascii := ascii_of_nat (Z.to_nat (48 + n mod 10)).

(** The decimal digits of [n >= 0] in front of [acc]; [fuel] bounds their
    number. *)
Fixpoint digits_of (fuel : nat) (n : Z) (acc : string) : string :=
  match fuel with
  | O => acc
  | S k =>
      let acc' := String (digit n) acc in
      if (n / 10 =? 0)%Z then acc' else digits_of k (n / 10) acc'
  end.

(** [n] has no more decimal digits than binary ones. *)
Definition decimal (n : Z) : string :=
  digits_of (S (Z.to_nat (Z.log2 n))) n EmptyString.

Fixpoint zeros (k : nat) : string :=
  match k with
  | O => EmptyString
  | S j => String "0" (zeros j)
  end.

(** A non-negative field printed in at least [width] digits, filled with
    zeros on the left.  As the library documents them, [%Y] is
    [zero_padded 4] (0001 to 9999) and [%m], [%d], [%H], [%M] and [%S] are
    [zero_padded 2].  The C libraries agree on [%Y] from the year 1000 on;
    below it some of them print the year without the zeros, so that what is
    said of the form of the time stamp is said for the years 1000 to
    9999. *)
Definition zero_padded (width : nat) (n : Z) : string :=
  let d := decimal n in zeros (width - String.length d) ++ d.

(** [dt.strftime('%Y%m%d_%H%M%S')] *)
Definition strftime_Ymd_HMS (dt : datetime) : string :=
  zero_padded 4 (year dt) ++ zero_padded 2 (month dt) ++ zero_padded 2 (day dt)
  ++ "_"
  ++ zero_padded 2 (hour dt) ++ zero_padded 2 (minute dt) ++ zero_padded 2 (second dt).

Definition timestamp (w : world) : string := strftime_Ymd_HMS (clock w).

Section Helpers.
Context {os : OsPath}.

Definition is_audio (path : string) : bool :=
  bool_decide (Py.lower (splitext path).2 ∈ AUDIO_EXTS).

Definition is_video (path : string) : bool :=
  bool_decide (Py.lower (splitext path).2 ∈ VIDEO_EXTS).

Definition exe : string :=
  if String.eqb os_name "nt" then "ffmpeg.exe" else "ffmpeg".

(** The loop of [which_ffmpeg] over the entries of [PATH]: [Some candidate]
    when the loop returns, [None] when it runs to its end. *)
Fixpoint which_ffmpeg_loop (w : world) (entries : list string) : option string :=
  match entries with
  | [] => None
  | p :: rest =>
      let candidate := path_join (Py.strip_chars (String Py.dquote EmptyString) p) exe in
      if isfile w candidate then Some candidate else which_ffmpeg_loop w rest
  end.

Definition which_ffmpeg (w : world) : string :=
  match which_ffmpeg_loop w (Py.split pathsep (default EmptyString (environ w !! "PATH"))) with
  | Some candidate => candidate
  | None =>
      let here := script_dir w in
      let local := path_join here exe in
      if isfile w local then local else exe
  end.

End Helpers.

(** ** The application object *)

Inductive btn_state := NORMAL | DISABLED.

(** The fields of [App] the merge and settings code reads or writes: the three
    [tk.StringVar]s of the form, the status line, the state of the merge
    button, and the settings with the path of their file. *)
Record App := {
  audio_var : string;
  video_var : string;
  outdir_var : string;
  status_var : string;
  merge_btn : btn_state;
  settings : json;
  config_path : string
}.

Definition set_audio_var (self : App) (v : string) : App :=
  {| audio_var := v; video_var := video_var self; outdir_var := outdir_var self;
     status_var := status_var self; merge_btn := merge_btn self;
     settings := settings self; config_path := config_path self |}.

Definition set_video_var (self : App) (v : string) : App :=
  {| audio_var := audio_var self; video_var := v; outdir_var := outdir_var self;
     status_var := status_var self; merge_btn := merge_btn self;
     settings := settings self; config_path := config_path self |}.

Definition set_outdir_var (self : App) (v : string) : App :=
  {| audio_var := audio_var self; video_var := video_var self; outdir_var := v;
     status_var := status_var self; merge_btn := merge_btn self;
     settings := settings self; config_path := config_path self |}.

Definition set_status_var (self : App) (v : string) : App :=
  {| audio_var := audio_var self; video_var := video_var self; outdir_var := outdir_var self;
     status_var := v; merge_btn := merge_btn self;
     settings := settings self; config_path := config_path self |}.

Definition set_merge_btn (self : App) (v : btn_state) : App :=
  {| audio_var := audio_var self; video_var := video_var self; outdir_var := outdir_var self;
     status_var := status_var self; merge_btn := v;
     settings := settings self; config_path := config_path self |}.

Definition set_settings (self : App) (v : json) : App :=
  {| audio_var := audio_var self; video_var := video_var self; outdir_var := outdir_var self;
     status_var := status_var self; merge_btn := merge_btn self;
     settings := v; config_path := config_path self |}.

(** What a call leaves outside the [App] object and the file system, in
    order: message boxes, calls on widgets, and the external process. *)
Inductive event :=
  | showerror (title message : string)
  | showinfo (title message : string)
  | update_idletasks
  | audio_entry_focus_set
  | subprocess_run_call (cmd : list string).

(** [subprocess.CompletedProcess] with [text=True]. *)
Record CompletedProcess := {
  returncode : Z;
  stdout : string;
  stderr : string
}.

(** The two characters a field is stripped of: double quote and space. *)
Definition quote_space : string := String Py.dquote " ".

Definition msg_ffmpeg_missing : string :=
  "未找到 ffmpeg 可执行文件。"
  ++ String Py.newline "请将 ffmpeg.exe 放在本脚本同目录，或添加到 PATH。".

(** The condition of the [if] inside the [try] of [merge_now]; [or] stops at
    the first true operand, and [os.path.getsize] may raise. *)
Definition merge_failed (proc : CompletedProcess) (w : world) (outfile : string) : res bool :=
  if negb (returncode proc =? 0)%Z then Ok true
  else if negb (exists_ w outfile) then Ok true
  else size ← getsize w outfile; Ok (size =? 0)%N.

(** The argument list handed to [subprocess.run]. *)
Definition merge_cmd (ffmpeg audio video outfile : string) : list string :=
  [ffmpeg; "-hide_banner"; "-loglevel"; "error"; "-y"; "-nostdin";
   "-i"; audio; "-i"; video; "-acodec"; "copy"; "-vcodec"; "copy"; outfile].

(** [self.settings if isinstance(self.settings, dict) else {}] *)
Definition settings_dict (self : App) : gmap string json :=
  match settings self with JDict d => d | _ => ∅ end.

Section Application.
Context {os : OsPath} {js : JsonLib}.

(** [subprocess.run(cmd, stdout=PIPE, stderr=PIPE, text=True, shell=False)]:
    the completed process, or the exception of a failed start, and the file
    system the call leaves. *)
Variable subprocess_run : list string -> world -> res CompletedProcess * world.

(** [merge_now] from the call of [which_ffmpeg] on, once the four checks
    have passed: [audio], [video] and [outdir] are its local variables. *)
Definition merge_now_run (self : App) (w : world) (audio video outdir : string)
  : App * world * list event :=
  let ffmpeg := which_ffmpeg w in
  let outfile := path_join outdir (timestamp w ++ ".mp4") in
  let cmd := merge_cmd ffmpeg audio video outfile in
  let self := set_merge_btn self DISABLED in
  let self := set_status_var self "正在合并..." in
  let log := [update_idletasks; subprocess_run_call cmd] in
  let '(started, w) := subprocess_run cmd w in
  match proc ← started; failed ← merge_failed proc w outfile; Ok (proc, failed) with
  | Ok (proc, true) =>
      let err := Py.or_ (Py.strip (stderr proc))
                        (Py.or_ (Py.strip (stdout proc)) "Unknown error.") in
      let self := set_status_var self "失败。" in
      (set_merge_btn self NORMAL, w, log ++ [showerror "合并失败" err])
  | Raise e =>
      if is_FileNotFoundError e then
        let self := set_status_var self "未找到 ffmpeg。" in
        (set_merge_btn self NORMAL, w, log ++ [showerror "未找到 ffmpeg" msg_ffmpeg_missing])
      else
        let self := set_status_var self "错误。" in
        (set_merge_btn self NORMAL, w, log ++ [showerror "错误" (exn_str e)])
  | Ok (proc, false) =>
      let self := set_merge_btn self NORMAL in
      let self := set_status_var self ("成功：" ++ outfile) in
      let self := set_audio_var self EmptyString in
      let self := set_video_var self EmptyString in
      (self, w,
       log ++ [showinfo "完成" ("合并成功：" ++ String Py.newline outfile);
               audio_entry_focus_set])
  end.

Definition merge_now (self : App) (w : world) : App * world * list event :=
  let audio := Py.strip_chars quote_space (audio_var self) in
  let video := Py.strip_chars quote_space (video_var self) in
  let outdir := Py.strip_chars quote_space (outdir_var self) in
  if negb (Py.truthy audio) || negb (isfile w audio) then
    (self, w, [showerror "错误" "请选择有效的音频文件。"])
  else if negb (Py.truthy video) || negb (isfile w video) then
    (self, w, [showerror "错误" "请选择有效的视频文件。"])
  else if negb (Py.truthy outdir) then
    (self, w, [showerror "错误" "请选择输出目录。"])
  else if negb (isdir w outdir) then
    (self, w, [showerror "错误" "输出目录不存在。"])
  else merge_now_run self w audio video outdir.

Definition load_settings (self : App) (w : world) : res json :=
  try_except
    (if isfile w (config_path self) then
       text ← read_file w (config_path self);
       json_load text
     else Ok (JDict ∅))
    (fun _ => Ok (JDict ∅)).

Definition save_outdir (self : App) (w : world) (path : string) : res (App * world) :=
  let settings' := JDict (<["outdir" := JStr path]> (settings_dict self)) in
  let self := set_settings self settings' in
  try_except
    (w' ← write_file w (config_path self) (json_dump settings'); Ok (self, w'))
    (fun _ => Ok (self, w)).

(** [pick_outdir], given what [filedialog.askdirectory] returns (the empty
    string when the dialog is cancelled). *)
Definition pick_outdir (self : App) (w : world) (path : string) : res (App * world) :=
  if Py.truthy path then
    let self := set_outdir_var self path in
    save_outdir self w path
  else Ok (self, w).

End Application.

(** ** Vocabulary of the specification *)

(** The three classes of the path classifier, and the extensions the
    specification lists for the first two. *)
Inductive media_kind := Audio | Video | Other.

Definition audio_extensions : list string :=
  ["aac"; "m4a"; "mp3"; "wav"; "flac"; "ogg"; "opus"; "wma"; "ac3"].

Definition video_extensions : list string :=
  ["mp4"; "mkv"; "mov"; "webm"; "m4v"; "avi"; "ts"].

Section Classifier.
Context {os : OsPath}.

Definition is_dot (c : ascii) : bool := Ascii.eqb c ".".

(** [c] is [os.sep] or [os.altsep]. *)
Definition is_sep (c : ascii) : bool :=
  Ascii.eqb c sep || match altsep with Some a => Ascii.eqb c a | None => false end.

(** [name] can be the last component of a path and has an extension to
    split off after it: no separator in it, and not dots only. *)
Definition plain_name (name : string) : Prop :=
  Py.all_chars (fun c => negb (is_sep c)) name = true
  /\ Py.all_chars is_dot name = false.

(** [ext] can follow the last dot of a path: no separator and no dot in it. *)
Definition plain_ext (ext : string) : Prop :=
  Py.all_chars (fun c => negb (is_sep c) && negb (is_dot c)) ext = true.

(** [dir] is empty or ends with a separator. *)
Definition dir_prefix (dir : string) : Prop :=
  dir = EmptyString \/ Py.ends_by is_sep dir = true.

(** A letter that has a capital and a small form: A to Z, a to z, and the
    accented letters of Latin-1 (U+00C0 to U+00DE and U+00E0 to U+00FE,
    the multiplication and the division sign apart). *)
Definition is_letter (c : ascii) : bool :=
  let n := nat_of_ascii c in
  ((65 <=? n)%nat && (n <=? 90)%nat) || ((97 <=? n)%nat && (n <=? 122)%nat)
  || ((192 <=? n)%nat && (n <=? 222)%nat && negb (n =? 215)%nat)
  || ((224 <=? n)%nat && (n <=? 254)%nat && negb (n =? 247)%nat).

(** [a] and [b] are the same character, letter case apart: the same
    character, or the capital and the small form of one letter (these lie
    32 apart in one block of 64 code points). *)
Definition same_letter (a b : ascii) : bool :=
  Ascii.eqb a b
  || (is_letter a && is_letter b
      && (nat_of_ascii a / 64 =? nat_of_ascii b / 64)%nat
      && (nat_of_ascii a mod 32 =? nat_of_ascii b mod 32)%nat).

(** [s] and [t] are the same text, letter case apart. *)
Fixpoint case_apart (s t : string) : bool :=
  match s, t with
  | EmptyString, EmptyString => true
  | String a s, String b t => same_letter a b && case_apart s t
  | _, _ => false
  end.

(** [ext] is the file extension of [path]: the text after the last dot of
    the last component of the path, when that component has something
    other than dots before that dot. *)
Definition extension_of (path ext : string) : Prop :=
  exists dir name,
    path = (dir ++ name ++ "." ++ ext)%string
    /\ dir_prefix dir /\ plain_name name /\ plain_ext ext.

(** The extension of [path] is [e], letter case apart. *)
Definition has_extension (path e : string) : Prop :=
  exists ext, extension_of path ext /\ case_apart ext e = true.

(** The 256 characters of a text. *)
Definition all_ascii : list ascii := map ascii_of_nat (seq 0 256).

(** The class of a path: what the pair [is_audio], [is_video] says. *)
Definition classify (path : string) : media_kind :=
  if is_audio path then Audio else if is_video path then Video else Other.

(** The path [which_ffmpeg] tests for an entry [p] of [PATH]. *)
Definition candidate_of (p : string) : string :=
  path_join (Py.strip_chars (String Py.dquote EmptyString) p) exe.

End Classifier.

(** The three inputs of a merge as [merge_now] uses them. *)
Definition audio_of (self : App) : string := Py.strip_chars quote_space (audio_var self).
Definition video_of (self : App) : string := Py.strip_chars quote_space (video_var self).
Definition outdir_of (self : App) : string := Py.strip_chars quote_space (outdir_var self).

(** The four preconditions of the specification, in its order. *)
Inductive check := AudioIsFile | VideoIsFile | OutdirGiven | OutdirIsDir.

Definition checks_in_order : list check :=
  [AudioIsFile; VideoIsFile; OutdirGiven; OutdirIsDir].

Definition holds (w : world) (audio video outdir : string) (c : check) : bool :=
  match c with
  | AudioIsFile => Py.truthy audio && isfile w audio
  | VideoIsFile => Py.truthy video && isfile w video
  | OutdirGiven => Py.truthy outdir
  | OutdirIsDir => isdir w outdir
  end.

(** The first precondition that does not hold, if any. *)
Definition first_failing (w : world) (audio video outdir : string) : option check :=
  find (fun c => negb (holds w audio video outdir c)) checks_in_order.

(** The message box of a validation error. *)
Definition validation_error (c : check) : event :=
  showerror "错误"
    match c with
    | AudioIsFile => "请选择有效的音频文件。"
    | VideoIsFile => "请选择有效的视频文件。"
    | OutdirGiven => "请选择输出目录。"
    | OutdirIsDir => "输出目录不存在。"
    end.

(** The message boxes of the other outcomes. *)
Definition success_box (outfile : string) : event :=
  showinfo "完成" ("合并成功：" ++ String Py.newline outfile).

Definition process_error (reason : string) : event := showerror "合并失败" reason.

Definition not_found : event := showerror "未找到 ffmpeg" msg_ffmpeg_missing.

Definition other_error (reason : string) : event := showerror "错误" reason.

Definition is_run_call (e : event) : bool :=
  match e with subprocess_run_call _ => true | _ => false end.

Definition is_showinfo (e : event) : bool :=
  match e with showinfo _ _ => true | _ => false end.

(** A merge attempt started the external process. *)
Definition launches (log : list event) : bool := existsb is_run_call log.

(** The place of a check in the order of the specification. *)
Definition check_index (c : check) : nat :=
  match c with
  | AudioIsFile => 0
  | VideoIsFile => 1
  | OutdirGiven => 2
  | OutdirIsDir => 3
  end.

(** The form with its three fields replaced by their stripped values. *)
Definition stripped_form (self : App) : App :=
  set_outdir_var
    (set_video_var (set_audio_var self (audio_of self)) (video_of self))
    (outdir_of self).

(** [c] is one of the two characters of [quote_space]. *)
Definition is_quote_or_space (c : ascii) : bool := Py.chr_in c quote_space.

(** A merge attempt succeeded when it ends with the completion box. *)
Definition succeeded (log : list event) : bool := existsb is_showinfo log.

(** The reason of a process error as the specification words it: the
    captured standard error if non-empty, else the captured standard output,
    else a fixed text. *)
Definition spec_reason (proc : CompletedProcess) : string :=
  if Py.truthy (stderr proc) then stderr proc
  else if Py.truthy (stdout proc) then stdout proc
  else "Unknown error.".

(** The reason [merge_now] reports. *)
Definition reason_of (proc : CompletedProcess) : string :=
  Py.or_ (Py.strip (stderr proc)) (Py.or_ (Py.strip (stdout proc)) "Unknown error.").

(** The output file is there and not empty. *)
Definition output_written (w : world) (outfile : string) : bool :=
  match fs w !! outfile with
  | Some (File data _ _) => negb (String.length data =? 0)%nat
  | Some (Dir n) => negb (n =? 0)%N
  | None => false
  end.

(** The ranges [datetime] keeps its fields in ([MINYEAR] is 1 and [MAXYEAR]
    is 9999). *)
Definition valid_datetime (dt : datetime) : Prop :=
  (1 <= year dt <= 9999 /\ 1 <= month dt <= 12 /\ 1 <= day dt <= 31
   /\ 0 <= hour dt < 24 /\ 0 <= minute dt < 60 /\ 0 <= second dt < 60)%Z.

(** A field printed in exactly two, in exactly four decimal digits. *)
Definition two_digits (n : Z) : string :=
  String (digit (n / 10)) (String (digit n) EmptyString).

Definition four_digits (n : Z) : string :=
  String (digit (n / 1000)) (String (digit (n / 100)) (two_digits n)).

Definition is_digit (c : ascii) : bool :=
  (48 <=? nat_of_ascii c)%nat && (nat_of_ascii c <=? 57)%nat.

Definition all_digits (s : string) : bool := Py.all_chars is_digit s.

(** The number a string of decimal digits writes, read after [acc]. *)
Fixpoint number_from (acc : Z) (s : string) : Z :=
  match s with
  | EmptyString => acc
  | String c rest => number_from (10 * acc + (Z.of_nat (nat_of_ascii c) - 48)) rest
  end.

Definition number_of (s : string) : Z := number_from 0 s.

(** The settings file can be replaced and read back by this process. *)
Definition settings_file_usable (w : world) (p : string) : bool :=
  match fs w !! p with
  | Some (File _ r wr) => r && wr
  | Some (Dir _) => false
  | None => creatable w p
  end.

(** ** Sample surroundings *)

Definition sample_clock : datetime :=
  {| year := 2024; month := 3; day := 7; hour := 9; minute := 5; second := 3 |}.

Definition sample_fs : gmap string node :=
  {[ "/opt/ff/ffmpeg" := File "ELF" true true;
     "/music/a.mp3" := File "ID3" true true;
     "/video/v.mp4" := File "ftyp" true true;
     "/out" := Dir 4096 ]}.

(** [PATH] lists a directory without the program, then, between double
    quotes, the directory that holds it. *)
Definition sample_world : world :=
  {| environ := {[ "PATH" := ("/usr/bin:" ++ String Py.dquote "/opt/ff" ++ String Py.dquote EmptyString)%string ]};
     script_dir := "/app";
     clock := sample_clock;
     fs := sample_fs;
     creatable := fun p => String.prefix "/app/" p || String.prefix "/out/" p |}.


(** A form with the audio path between double quotes. *)
Definition sample_app : App :=
  {| audio_var := String Py.dquote "/music/a.mp3" ++ String Py.dquote EmptyString;
     video_var := "/video/v.mp4";
     outdir_var := "/out";
     status_var := "就绪。";
     merge_btn := NORMAL;
     settings := JDict ∅;
     config_path := "/app/ffmerge_gui_config.json" |}.

(** External programs: one that writes [data] to the last argument and exits
    with status 0, one that only exits, one that cannot be started. *)
Definition program_writes (data : string) (cmd : list string) (w : world)
  : res CompletedProcess * world :=
  (Ok {| returncode := 0; stdout := EmptyString; stderr := EmptyString |},
   set_fs w (<[List.last cmd EmptyString := File data true true]> (fs w))).

Definition program_exits (rc : Z) (out err : string) (cmd : list string) (w : world)
  : res CompletedProcess * world :=
  (Ok {| returncode := rc; stdout := out; stderr := err |}, w).

Definition program_raises (e : exn) (cmd : list string) (w : world)
  : res CompletedProcess * world :=
  (Raise e, w).

(** A small JSON library for objects whose values are strings free of
    quotes, backslashes and control characters, in the layout of
    [indent=2]: one ["key": "value"] per line between braces. *)
Definition quoted (s : string) : string :=
  String Py.dquote s ++ String Py.dquote EmptyString.

Definition flat_entry (kv : string * json) : option string :=
  match kv.2 with
  | JStr v => Some ("  " ++ quoted kv.1 ++ ": " ++ quoted v)%string
  | _ => None
  end.

Fixpoint join_lines (lines : list string) : string :=
  match lines with
  | [] => EmptyString
  | [l] => l ++ String Py.newline EmptyString
  | l :: rest => l ++ "," ++ String Py.newline (join_lines rest)
  end.

Definition flat_dump (v : json) : string :=
  match v with
  | JDict d =>
      match mapM flat_entry (map_to_list d) with
      | Some [] => "{}"
      | Some lines => "{" ++ String Py.newline (join_lines lines) ++ "}"
      | None => "null"
      end
  | _ => "null"
  end.

(** The text up to the next double quote, and what follows that quote. *)
Fixpoint until_quote (s : string) : option (string * string) :=
  match s with
  | EmptyString => None
  | String c rest =>
      if Ascii.eqb c Py.dquote then Some (EmptyString, rest)
      else '(a, b) ← until_quote rest; Some (String c a, b)
  end.

Definition after (prefix s : string) : option string :=
  if String.prefix prefix s
  then Some (Py.drop (String.length prefix) s) else None.

Definition flat_line (line : string) : option (string * json) :=
  s ← after ("  " ++ String Py.dquote EmptyString)%string line;
  '(k, s) ← until_quote s;
  s ← after (": " ++ String Py.dquote EmptyString)%string s;
  '(v, s) ← until_quote s;
  if String.eqb s EmptyString || String.eqb s "," then Some (k, JStr v) else None.

Fixpoint flat_lines (lines : list string) : option (list (string * json)) :=
  match lines with
  | ["}"] => Some []
  | l :: rest => kv ← flat_line l; kvs ← flat_lines rest; Some (kv :: kvs)
  | [] => None
  end.

Definition flat_load (text : string) : res json :=
  if String.eqb text "{}" then Ok (JDict ∅)
  else match Py.split Py.newline text with
       | "{" :: lines =>
           match flat_lines lines with
           | Some kvs => Ok (JDict (list_to_map kvs))
           | None => Raise (Exn ValueError "Expecting value")
           end
       | _ => Raise (Exn ValueError "Expecting value")
       end.

Definition flat_json : JsonLib :=
  {| json_dump := flat_dump; json_load := flat_load |}.



(** ** Drag and drop: [clean_quoted_win_path], [shlex.split], [parse_dnd_list] *)

(** [d == c] as a test on [d]. *)
Definition is_char (c : ascii) : ascii -> bool := fun d => Ascii.eqb d c.

Definition squote : ascii := "039"%char.
Definition backslash : ascii := "092"%char.

(** [s[:-1]] *)
Fixpoint chop_last (s : string) : string :=
  match s with
  | EmptyString => EmptyString
  | String _ EmptyString => EmptyString
  | String c rest => String c (chop_last rest)
  end.

(** [s[1:-1]] *)
Definition inner_slice (s : string) : string :=
  match s with
  | EmptyString => EmptyString
  | String _ rest => chop_last rest
  end.

(** [s.startswith(a) and s.endswith(b)] for one-character [a] and [b]. *)
Definition wrapped_in (a b : ascii) (s : string) : bool :=
  Py.starts_by (is_char a) s && Py.ends_by (is_char b) s.

Definition clean_quoted_win_path (s : string) : string :=
  let s := Py.strip s in
  let s := if wrapped_in "{" "}" s then inner_slice s else s in
  let s := if wrapped_in Py.dquote Py.dquote s || wrapped_in squote squote s
           then inner_slice s else s in
  s.

(** [s.replace(old, new)] for one-character [old] and [new]. *)
Fixpoint replace_char (old new : ascii) (s : string) : string :=
  match s with
  | EmptyString => EmptyString
  | String c rest =>
      String (if Ascii.eqb c old then new else c) (replace_char old new rest)
  end.

(** [shlex.split(s)]: the lexer of the standard library in the setting
    [split] gives it ([posix=True], [whitespace_split=True], no comment
    characters, no punctuation characters). *)
Module Shlex.

(** [self.state]: [' '], ['a'], a quote character, or the escape
    character. *)
Inductive state :=
  | Blank
  | Word
  | Quote (q : ascii)
  | Escape.

(** [nextchar in self.whitespace] *)
Definition whitespace (c : ascii) : bool := Py.chr_in c (String " " (String "009" (String "013" (String "010" EmptyString)))).

(** [nextchar in self.quotes] *)
Definition quotes (c : ascii) : bool := Ascii.eqb c squote || Ascii.eqb c Py.dquote.

(** [nextchar in self.escape] *)
Definition escape (c : ascii) : bool := Ascii.eqb c backslash.

(** [escapedstate in self.quotes and nextchar != self.state and
    nextchar != escapedstate], in the escape state. *)
Definition keeps_backslash (escapedstate : state) (c : ascii) : bool :=
  match escapedstate with
  | Quote q => negb (Ascii.eqb c backslash) && negb (Ascii.eqb c q)
  | _ => false
  end.

(** What [read_token] returns at the end of the input, as the tokens still
    to come: none when the result is [None]. *)
Definition last_token (quoted : bool) (token : string) : list string :=
  if negb quoted && negb (Py.truthy token) then [] else [token].

(** [list(lex)]: the calls of [read_token] one after the other, over the
    characters still unread.  [st] is [self.state], [token] is
    [self.token]; [escapedstate] and [quoted] are the local variables of
    the call of [read_token] under way. *)
Fixpoint tokens (st escapedstate : state) (quoted : bool) (token : string) (s : string)
  : res (list string) :=
  match s with
  | EmptyString =>
      match st with
      | Blank | Word => Ok (last_token quoted token)
      | Quote _ => Raise (Exn ValueError "No closing quotation")
      | Escape => Raise (Exn ValueError "No escaped character")
      end
  | String c rest =>
      match st with
      | Blank =>
          if whitespace c then
            if Py.truthy token || quoted
            then ts ← tokens Blank Blank false EmptyString rest; Ok (token :: ts)
            else tokens Blank escapedstate quoted token rest
          else if escape c then tokens Escape Word quoted token rest
          else if quotes c then tokens (Quote c) escapedstate quoted token rest
          else tokens Word escapedstate quoted (String c EmptyString) rest
      | Quote q =>
          if Ascii.eqb c q then tokens Word escapedstate true token rest
          else if escape c && Ascii.eqb q Py.dquote
          then tokens Escape (Quote q) true token rest
          else tokens (Quote q) escapedstate true (token ++ String c EmptyString)%string rest
      | Escape =>
          let token := if keeps_backslash escapedstate c
                       then (token ++ String backslash EmptyString)%string else token in
          tokens escapedstate escapedstate quoted (token ++ String c EmptyString)%string rest
      | Word =>
          if whitespace c then
            if Py.truthy token || quoted
            then ts ← tokens Blank Blank false EmptyString rest; Ok (token :: ts)
            else tokens Blank escapedstate quoted token rest
          else if quotes c then tokens (Quote c) escapedstate quoted token rest
          else if escape c then tokens Escape Word quoted token rest
          else tokens Word escapedstate quoted (token ++ String c EmptyString)%string rest
      end
  end.

Definition split (s : string) : res (list string) :=
  tokens Blank Blank false EmptyString s.

End Shlex.

(** [App.parse_dnd_list] *)
Definition parse_dnd_list (data : string) : list string :=
  let normalized := replace_char "}" Py.dquote (replace_char "{" Py.dquote data) in
  let items :=
    match Shlex.split normalized with
    | Ok items => items
    | Raise _ => [data]
    end in
  map clean_quoted_win_path items.

(** ** The other handlers of [App] *)

(** What [open_outdir] leaves outside the [App] object: a message box of
    the form, a warning box, or the start of the desktop's file browser. *)
Inductive desktop_event :=
  | form_event (e : event)
  | showwarning (title message : string)
  | os_startfile_call (path : string)
  | subprocess_Popen_call (cmd : list string).

(** The truth value of a value read from JSON; a float is given by its
    [repr]. *)
Definition json_truthy (v : json) : bool :=
  match v with
  | JNull => false
  | JBool b => b
  | JInt n => negb (n =? 0)%Z
  | JFloat repr => negb (String.eqb repr "0.0" || String.eqb repr "-0.0")
  | JStr s => Py.truthy s
  | JList l => match l with [] => false | _ => true end
  | JDict d => negb (bool_decide (d = ∅))
  end.

Section Handlers.
Context {os : OsPath} {js : JsonLib}.

(** [DnD_AVAILABLE]: whether [tkinterdnd2] could be imported. *)
Variable DnD_AVAILABLE : bool.

(** [sys.platform] *)
Variable sys_platform : string.

(** [os.startfile(path)] and [subprocess.Popen(cmd)]: whether the call
    raises. *)
Variable os_startfile : string -> res unit.
Variable subprocess_Popen : list string -> res unit.

(** What [tk.StringVar(value=v).get()] gives for a value that is not a
    [str]. *)
Variable tk_text : json -> string.

(** The fields [App.__init__] sets, of those [App] has here: the path of
    the settings file, the settings, the three empty or restored fields of
    the form and the first status line. *)
Definition App_init (w : world) : res App :=
  let config_path :=
    path_join (script_dir w) "ffmerge_gui_config.json" in
  let self := {| audio_var := EmptyString; video_var := EmptyString;
                 outdir_var := EmptyString; status_var := EmptyString;
                 merge_btn := NORMAL; settings := JNull;
                 config_path := config_path |} in
  settings ← load_settings self w;
  let self := set_settings self settings in
  let last_outdir :=
    match settings with
    | JDict d =>
        match default (JStr EmptyString) (d !! "outdir") with
        | JStr s => s
        | v => if json_truthy v then tk_text v else EmptyString
        end
    | _ => EmptyString
    end in
  let self := set_outdir_var self last_outdir in
  let self := set_status_var self "就绪。" in
  Ok (set_status_var self
        (if DnD_AVAILABLE then "就绪。（已启用拖放）"
         else "就绪。（如需拖放，请安装 tkinterdnd2：pip install tkinterdnd2）")).

(** [pick_audio] and [pick_video], given what [askopenfilename] returns. *)
Definition pick_audio (self : App) (path : string) : App :=
  if Py.truthy path then set_audio_var self path else self.

Definition pick_video (self : App) (path : string) : App :=
  if Py.truthy path then set_video_var self path else self.

Definition open_outdir (self : App) (w : world) : list desktop_event :=
  let path := Py.strip_chars quote_space (outdir_var self) in
  if negb (Py.truthy path) then [showwarning "提示" "尚未选择输出目录。"]
  else if negb (isdir w path) then [form_event (showerror "错误" "输出目录不存在或不可访问。")]
  else
    let '(call, outcome) :=
      if String.eqb os_name "nt" then (os_startfile_call path, os_startfile path)
      else if String.eqb sys_platform "darwin"
      then (subprocess_Popen_call ["open"; path], subprocess_Popen ["open"; path])
      else (subprocess_Popen_call ["xdg-open"; path], subprocess_Popen ["xdg-open"; path]) in
    match outcome with
    | Ok _ => [call]
    | Raise e => [call; form_event (showerror "错误" (exn_str e))]
    end.

Definition on_drop_audio (self : App) (data : string) : App :=
  match parse_dnd_list data with
  | f :: _ => set_audio_var self f
  | [] => self
  end.

Definition on_drop_video (self : App) (data : string) : App :=
  match parse_dnd_list data with
  | f :: _ => set_video_var self f
  | [] => self
  end.

(** The loop of [on_drop_dir]. *)
Fixpoint on_drop_dir_files (self : App) (w : world) (files : list string)
  : res (App * world) :=
  match files with
  | [] => Ok (self, w)
  | f :: rest =>
      if isdir w f then save_outdir (set_outdir_var self f) w f
      else on_drop_dir_files self w rest
  end.

Definition on_drop_dir (self : App) (w : world) (data : string) : res (App * world) :=
  on_drop_dir_files self w (parse_dnd_list data).

(** The loop of [on_drop_any]. *)
Fixpoint on_drop_any_loop (self : App) (w : world) (files : list string)
  : res (App * world) :=
  match files with
  | [] => Ok (self, w)
  | f :: rest =>
      if isdir w f then
        if negb (Py.truthy (outdir_var self)) then
          '(self, w) ← save_outdir (set_outdir_var self f) w f;
          on_drop_any_loop self w rest
        else on_drop_any_loop self w rest
      else if is_audio f && negb (Py.truthy (audio_var self))
      then on_drop_any_loop (set_audio_var self f) w rest
      else if is_video f && negb (Py.truthy (video_var self))
      then on_drop_any_loop (set_video_var self f) w rest
      else on_drop_any_loop self w rest
  end.

(** [on_drop_any] once the dropped text is parsed. *)
Definition on_drop_any_files (self : App) (w : world) (files : list string)
  : res (App * world) :=
  match files with
  | [] => Ok (self, w)
  | first :: _ =>
      '(self, w) ← on_drop_any_loop self w files;
      let self := if negb (Py.truthy (audio_var self))
                  then set_audio_var self first else self in
      let self := match files with
                  | _ :: second :: _ =>
                      if negb (Py.truthy (video_var self))
                      then set_video_var self second else self
                  | _ => self
                  end in
      Ok (self, w)
  end.

Definition on_drop_any (self : App) (w : world) (data : string) : res (App * world) :=
  on_drop_any_files self w (parse_dnd_list data).

End Handlers.

(** [open_outdir] started the file browser of the desktop. *)
Definition is_browser_call (e : desktop_event) : bool :=
  match e with
  | os_startfile_call _ | subprocess_Popen_call _ => true
  | _ => false
  end.

(** The error box [open_outdir] shows when the call that starts the file
    browser raises, and nothing when it returns. *)
Definition browser_error (outcome : res unit) : list desktop_event :=
  match outcome with
  | Ok _ => []
  | Raise e => [form_event (showerror "错误" (exn_str e))]
  end.

(** The name of the settings file. *)
Definition config_name : string := "ffmerge_gui_config.json".

(** A character [clean_quoted_win_path] may remove: white space, a brace
    or a quote. *)
Definition is_wrapping (c : ascii) : bool :=
  Py.isspace c || is_char "{" c || is_char "}" c || is_char Py.dquote c || is_char squote c.

(** [s] between the characters [a] and [b]. *)
Definition wrap (a b : ascii) (s : string) : string :=
  String a (s ++ String b EmptyString).

(** [t] is [s] without some white space, braces and quotes at its two
    ends. *)
Definition peeled (t s : string) : Prop :=
  exists l r, s = (l ++ t ++ r)%string
              /\ Py.all_chars is_wrapping l = true /\ Py.all_chars is_wrapping r = true.

(** The text of a drop as the source describes it: items separated by one
    space, an item either as it is or between braces. *)
Inductive dropped :=
  | Braced (path : string)
  | Bare (path : string).

Definition dropped_path (d : dropped) : string :=
  match d with Braced p | Bare p => p end.

Definition drop_element (d : dropped) : string :=
  match d with
  | Braced p => wrap "{" "}" p
  | Bare p => p
  end.

Definition drop_text (items : list dropped) : string :=
  Py.join " " (map drop_element items).

Definition is_brace (c : ascii) : bool := is_char "{" c || is_char "}" c.

(** A character the lexer takes as part of a word. *)
Definition word_char (c : ascii) : bool :=
  negb (Shlex.whitespace c) && negb (Shlex.quotes c) && negb (Shlex.escape c).

(** An item as it is holds no white space, quote, backslash or brace and is
    not empty; an item between braces holds no double quote, backslash or
    brace. *)
Definition well_formed (d : dropped) : Prop :=
  match d with
  | Bare p =>
      Py.truthy p = true
      /\ Py.all_chars (fun c => word_char c && negb (is_brace c)) p = true
  | Braced p =>
      Py.all_chars (fun c => negb (is_char Py.dquote c) && negb (Shlex.escape c)
                             && negb (is_brace c)) p = true
  end.

(** [data.replace('{', '"').replace('}', '"')] *)
Definition normalized (data : string) : string :=
  replace_char "}" Py.dquote (replace_char "{" Py.dquote data).

(** A text read with each backslash dropped and the character after it
    kept; [None] when its last backslash has nothing after it.  [pending]:
    the character before was such a backslash. *)
Fixpoint unescape_from (pending : bool) (s : string) : option string :=
  match s with
  | EmptyString => if pending then None else Some EmptyString
  | String c rest =>
      if pending then String c <$> unescape_from false rest
      else if Shlex.escape c then unescape_from true rest
      else String c <$> unescape_from false rest
  end.

Definition unescape (s : string) : option string := unescape_from false s.

(** A field after the loop of [on_drop_any] is the field before it, or,
    if that was empty, one of the dropped items. *)
Definition kept_or_dropped (before after : string) (files : list string) : Prop :=
  after = before \/ (Py.truthy before = false /\ after ∈ files).

(** The lexer has a token under way: it is inside a quotation or after a
    backslash, or outside them with characters read or a quotation closed. *)
Definition token_started (st : Shlex.state) (quoted : bool) (token : string) : bool :=
  match st with
  | Shlex.Blank | Shlex.Word => Py.truthy token || quoted
  | Shlex.Quote _ | Shlex.Escape => true
  end.

(** A form with nothing chosen yet. *)
Definition blank_app : App :=
  {| audio_var := EmptyString; video_var := EmptyString; outdir_var := EmptyString;
     status_var := "就绪。"; merge_btn := NORMAL; settings := JDict ∅;
     config_path := "/app/ffmerge_gui_config.json" |}.

(** * Properties *)

#[local] Arguments String.append !_ _ / : simpl nomatch.

(** ** Stripping *)

Section Strip.
Variable f : ascii -> bool.

Lemma lstrip_by_split (s : string) :
  exists l, s = (l ++ Py.lstrip_by f s)%string /\ Py.all_chars f l = true.
Proof.
  induction s as [|c s IH]; simpl.
  - exists EmptyString. split; reflexivity.
  - destruct (f c) eqn:Hc.
    + destruct IH as (l & Hs & Hl). exists (String c l). simpl.
      rewrite Hc, Hl. split; [congruence | reflexivity].
    + exists EmptyString. split; reflexivity.
Qed.

Lemma rstrip_by_split (s : string) :
  exists r, s = (Py.rstrip_by f s ++ r)%string /\ Py.all_chars f r = true.
Proof.
  induction s as [|c s IH]; simpl.
  - exists EmptyString. split; reflexivity.
  - destruct IH as (r & Hs & Hr).
    destruct (Py.rstrip_by f s) as [|d t] eqn:E.
    + simpl in Hs. subst r. destruct (f c) eqn:Hc.
      * exists (String c s). simpl. rewrite Hc, Hr. split; reflexivity.
      * exists s. split; [reflexivity | assumption].
    + exists r. split; [simpl in *; congruence | assumption].
Qed.

Lemma lstrip_by_starts (s : string) : Py.starts_by f (Py.lstrip_by f s) = false.
Proof.
  induction s as [|c s IH]; simpl; [reflexivity|].
  destruct (f c) eqn:Hc; [assumption | simpl; assumption].
Qed.

Lemma rstrip_by_ends (s : string) : Py.ends_by f (Py.rstrip_by f s) = false.
Proof.
  induction s as [|c s IH]; simpl; [reflexivity|].
  destruct (Py.rstrip_by f s) as [|d t] eqn:E.
  - destruct (f c) eqn:Hc; simpl; [reflexivity | assumption].
  - simpl in *. assumption.
Qed.

Lemma rstrip_by_starts (s : string) :
  Py.starts_by f s = false -> Py.starts_by f (Py.rstrip_by f s) = false.
Proof.
  destruct s as [|c s]; simpl; [reflexivity|]. intros Hc.
  destruct (Py.rstrip_by f s); [rewrite Hc|]; simpl; assumption.
Qed.

Lemma lstrip_by_id (s : string) : Py.starts_by f s = false -> Py.lstrip_by f s = s.
Proof.
  destruct s as [|c s]; simpl; [reflexivity|]. intros ->. reflexivity.
Qed.

Lemma rstrip_by_id (s : string) : Py.ends_by f s = false -> Py.rstrip_by f s = s.
Proof.
  induction s as [|c s IH]; simpl; [reflexivity|].
  destruct s as [|d t].
  - simpl. intros ->. reflexivity.
  - intros Hs. rewrite (IH Hs). reflexivity.
Qed.

Lemma strip_by_starts (s : string) : Py.starts_by f (Py.strip_by f s) = false.
Proof. apply rstrip_by_starts, lstrip_by_starts. Qed.

Lemma strip_by_ends (s : string) : Py.ends_by f (Py.strip_by f s) = false.
Proof. apply rstrip_by_ends. Qed.

Lemma strip_by_idem (s : string) : Py.strip_by f (Py.strip_by f s) = Py.strip_by f s.
Proof.
  unfold Py.strip_by at 1.
  rewrite (lstrip_by_id _ (strip_by_starts s)).
  apply rstrip_by_id, strip_by_ends.
Qed.

Lemma strip_by_split (s : string) :
  exists l r, s = (l ++ Py.strip_by f s ++ r)%string
              /\ Py.all_chars f l = true /\ Py.all_chars f r = true.
Proof.
  destruct (lstrip_by_split s) as (l & Hl & Hfl).
  destruct (rstrip_by_split (Py.lstrip_by f s)) as (r & Hr & Hfr).
  exists l, r. unfold Py.strip_by. rewrite <- Hr. auto.
Qed.

Lemma rstrip_by_all (r : string) : Py.all_chars f r = true -> Py.rstrip_by f r = EmptyString.
Proof.
  induction r as [|c r IH]; simpl; [reflexivity|].
  intros [Hc Hr]%andb_true_iff. rewrite (IH Hr), Hc. reflexivity.
Qed.

Lemma rstrip_by_app_all (s r : string) :
  Py.all_chars f r = true -> Py.rstrip_by f (s ++ r) = Py.rstrip_by f s.
Proof.
  intros Hr. induction s as [|c s IH]; simpl.
  - apply rstrip_by_all, Hr.
  - rewrite IH. reflexivity.
Qed.

(** A text between two characters that are stripped, itself free of them
    at both ends, is what stripping leaves. *)
Lemma strip_by_wrapped (q : ascii) (p : string) :
  f q = true -> Py.starts_by f p = false -> Py.ends_by f p = false ->
  Py.strip_by f (String q p ++ String q EmptyString) = p.
Proof.
  intros Hq Hs He. unfold Py.strip_by. cbn [String.append Py.lstrip_by]. rewrite Hq.
  destruct p as [|c p].
  - simpl. rewrite Hq. reflexivity.
  - rewrite lstrip_by_id by exact Hs.
    rewrite rstrip_by_app_all by (simpl; rewrite Hq; reflexivity).
    apply rstrip_by_id, He.
Qed.

End Strip.

(** ** Slices and [rfind] *)

Lemma append_assoc (a b c : string) : ((a ++ b) ++ c = a ++ b ++ c)%string.
Proof. induction a as [|x a IH]; simpl; [reflexivity | rewrite IH; reflexivity]. Qed.

Lemma length_append (a b : string) :
  String.length (a ++ b) = String.length a + String.length b.
Proof. induction a as [|x a IH]; simpl; [reflexivity | rewrite IH; reflexivity]. Qed.

Lemma take_append (a b : string) : Py.take (String.length a) (a ++ b) = a.
Proof. induction a as [|x a IH]; simpl; [destruct b; reflexivity | rewrite IH; reflexivity]. Qed.

Lemma drop_append (a b : string) : Py.drop (String.length a) (a ++ b) = b.
Proof. induction a as [|x a IH]; simpl; [reflexivity | exact IH]. Qed.

Lemma get_append (a b : string) (c : ascii) :
  String.get (String.length a) (a ++ String c b) = Some c.
Proof. induction a as [|x a IH]; simpl; [reflexivity | exact IH]. Qed.

Lemma all_chars_append (f : ascii -> bool) (a b : string) :
  Py.all_chars f (a ++ b) = Py.all_chars f a && Py.all_chars f b.
Proof.
  induction a as [|x a IH]; simpl; [reflexivity|].
  rewrite IH, andb_assoc. reflexivity.
Qed.

Lemma all_chars_impl (f g : ascii -> bool) (s : string) :
  (forall c, f c = true -> g c = true) ->
  Py.all_chars f s = true -> Py.all_chars g s = true.
Proof.
  intros Hfg. induction s as [|x s IH]; simpl; [reflexivity|].
  intros [Hx Hs]%andb_true_iff. rewrite (Hfg x Hx), (IH Hs). reflexivity.
Qed.

Lemma rfind_bounds (c : ascii) (s : string) :
  (-1 <= Py.rfind c s < Z.of_nat (String.length s))%Z.
Proof.
  induction s as [|d s IH]; cbn [Py.rfind String.length]; [lia|].
  destruct (0 <=? Py.rfind c s)%Z eqn:E; [lia|].
  destruct (Ascii.eqb d c); lia.
Qed.

Lemma rfind_absent (c : ascii) (s : string) :
  Py.all_chars (fun d => negb (Ascii.eqb d c)) s = true -> Py.rfind c s = (-1)%Z.
Proof.
  induction s as [|d s IH]; cbn [Py.rfind Py.all_chars]; [reflexivity|].
  intros [Hd Hs]%andb_true_iff. rewrite (IH Hs). simpl.
  apply negb_true_iff in Hd. rewrite Hd. reflexivity.
Qed.

Lemma rfind_append (c : ascii) (a b : string) :
  Py.rfind c (a ++ b)
  = if (0 <=? Py.rfind c b)%Z then (Z.of_nat (String.length a) + Py.rfind c b)%Z
    else Py.rfind c a.
Proof.
  pose proof (rfind_bounds c b) as Hb.
  induction a as [|d a IH]; cbn [String.append Py.rfind String.length].
  - destruct (0 <=? Py.rfind c b)%Z eqn:E; [lia|].
    apply Z.leb_gt in E. lia.
  - rewrite IH. destruct (0 <=? Py.rfind c b)%Z eqn:E.
    + apply Z.leb_le in E.
      replace (0 <=? Z.of_nat (String.length a) + Py.rfind c b)%Z with true
        by (symmetry; apply Z.leb_le; lia).
      lia.
    + reflexivity.
Qed.

Lemma rfind_last (c : ascii) (s : string) :
  Py.ends_by (fun d => Ascii.eqb d c) s = true ->
  Py.rfind c s = (Z.of_nat (String.length s) - 1)%Z.
Proof.
  induction s as [|d s IH]; [discriminate|].
  destruct s as [|e s].
  - simpl. intros ->. reflexivity.
  - intros He. change (Py.ends_by (fun d => Ascii.eqb d c) (String e s) = true) in He.
    specialize (IH He). cbn [Py.rfind String.length] in *.
    rewrite IH.
    replace (0 <=? Z.of_nat (S (String.length s)) - 1)%Z with true
      by (symmetry; apply Z.leb_le; lia).
    lia.
Qed.

Lemma has_non_dot_name (dir name rest : string) :
  has_non_dot (String.length name) (String.length dir) (dir ++ name ++ rest)
  = negb (Py.all_chars (fun c => Ascii.eqb c ".") name).
Proof.
  revert dir. induction name as [|c name IH]; intros dir; [reflexivity|].
  cbn [String.length has_non_dot String.append Py.all_chars].
  rewrite get_append.
  replace (dir ++ String c (name ++ rest))%string
    with ((dir ++ String c EmptyString) ++ name ++ rest)%string
    by (rewrite append_assoc; reflexivity).
  replace (S (String.length dir)) with (String.length (dir ++ String c EmptyString))
    by (rewrite length_append; simpl; lia).
  destruct (Ascii.eqb_spec c ".") as [->|Hc].
  - rewrite IH. reflexivity.
  - simpl. destruct c as [[] [] [] [] [] [] [] []]; try reflexivity. contradiction.
Qed.

(** ** Decimal fields *)

Lemma digits_of_last (k : nat) (n : Z) (acc : string) :
  (0 <= n < 10)%Z -> digits_of (S k) n acc = String (digit n) acc.
Proof.
  intros Hn. cbn [digits_of]. rewrite (Z.div_small n 10) by lia. reflexivity.
Qed.

Lemma digits_of_next (k : nat) (n : Z) (acc : string) :
  (10 <= n)%Z -> digits_of (S k) n acc = digits_of k (n / 10) (String (digit n) acc).
Proof.
  intros Hn. cbn [digits_of].
  destruct (n / 10 =? 0)%Z eqn:E; [|reflexivity].
  apply Z.eqb_eq in E.
  assert (1 <= n / 10)%Z by (apply Z.div_le_lower_bound; lia). lia.
Qed.

Lemma decimal_fuel (n : Z) :
  (10 <= n)%Z -> exists k, S (Z.to_nat (Z.log2 n)) = S (S (S (S k))).
Proof.
  intros Hn.
  assert (3 <= Z.log2 n)%Z by (change 3%Z with (Z.log2 8); apply Z.log2_le_mono; lia).
  exists (Z.to_nat (Z.log2 n) - 3). lia.
Qed.

Lemma zero_padded_2 (n : Z) : (0 <= n < 100)%Z -> zero_padded 2 n = two_digits n.
Proof.
  intros Hn. unfold zero_padded, decimal, two_digits.
  destruct (Z.lt_ge_cases n 10) as [Hlt|Hge].
  - rewrite digits_of_last by lia. rewrite (Z.div_small n 10) by lia. reflexivity.
  - destruct (decimal_fuel n Hge) as [k ->].
    rewrite digits_of_next by lia. rewrite digits_of_last; [reflexivity|].
    split; [apply Z.div_pos; lia | apply Z.div_lt_upper_bound; lia].
Qed.

Lemma zero_padded_4 (n : Z) : (0 <= n <= 9999)%Z -> zero_padded 4 n = four_digits n.
Proof.
  intros Hn. unfold zero_padded, decimal, four_digits, two_digits.
  destruct (Z.lt_ge_cases n 10) as [Hlt|Hge].
  { rewrite digits_of_last by lia.
    rewrite (Z.div_small n 1000), (Z.div_small n 100), (Z.div_small n 10) by lia.
    reflexivity. }
  destruct (decimal_fuel n Hge) as [k ->].
  assert (1 <= n / 10 < 1000)%Z
    by (split; [apply Z.div_le_lower_bound | apply Z.div_lt_upper_bound]; lia).
  rewrite digits_of_next by lia.
  destruct (Z.lt_ge_cases n 100) as [Hlt|Hge2].
  { rewrite digits_of_last
      by (split; [lia | apply Z.div_lt_upper_bound; lia]).
    rewrite (Z.div_small n 1000), (Z.div_small n 100) by lia. reflexivity. }
  assert (10 <= n / 10)%Z by (apply Z.div_le_lower_bound; lia).
  rewrite digits_of_next by lia. rewrite Z.div_div by lia. change (10 * 10)%Z with 100%Z.
  destruct (Z.lt_ge_cases n 1000) as [Hlt|Hge3].
  { rewrite digits_of_last
      by (split; [apply Z.div_pos; lia | apply Z.div_lt_upper_bound; lia]).
    rewrite (Z.div_small n 1000) by lia. reflexivity. }
  assert (10 <= n / 100)%Z by (apply Z.div_le_lower_bound; lia).
  rewrite digits_of_next by lia. rewrite Z.div_div by lia. change (100 * 10)%Z with 1000%Z.
  rewrite digits_of_last
    by (split; [apply Z.div_pos; lia | apply Z.div_lt_upper_bound; lia]).
  reflexivity.
Qed.

Lemma is_digit_digit (n : Z) : is_digit (digit n) = true.
Proof.
  unfold is_digit, digit.
  pose proof (Z.mod_pos_bound n 10 eq_refl) as Hm.
  rewrite nat_ascii_embedding by lia.
  apply andb_true_iff. split; apply Nat.leb_le; lia.
Qed.

Lemma digit_value (n : Z) : (Z.of_nat (nat_of_ascii (digit n)) - 48 = n mod 10)%Z.
Proof.
  unfold digit. pose proof (Z.mod_pos_bound n 10 eq_refl) as Hm.
  rewrite nat_ascii_embedding by lia. lia.
Qed.

Lemma number_of_two_digits (n : Z) : (0 <= n < 100)%Z -> number_of (two_digits n) = n.
Proof.
  intros Hn. unfold number_of, two_digits. cbn [number_from].
  rewrite !digit_value. Z.to_euclidean_division_equations. lia.
Qed.

Lemma number_of_four_digits (n : Z) : (0 <= n <= 9999)%Z -> number_of (four_digits n) = n.
Proof.
  intros Hn. unfold number_of, four_digits, two_digits. cbn [number_from].
  rewrite !digit_value. Z.to_euclidean_division_equations. lia.
Qed.

(** The timestamp of a clock reading is made of fields of fixed width. *)
Lemma strftime_fields (dt : datetime) :
  valid_datetime dt ->
  strftime_Ymd_HMS dt
  = (four_digits (year dt) ++ two_digits (month dt) ++ two_digits (day dt)
     ++ "_"
     ++ two_digits (hour dt) ++ two_digits (minute dt) ++ two_digits (second dt))%string.
Proof.
  intros (Hy & Hm & Hd & HH & HM & HS). unfold strftime_Ymd_HMS.
  rewrite zero_padded_4 by lia. rewrite !zero_padded_2 by lia. reflexivity.
Qed.

(** ** The path classifier *)

Lemma AUDIO_EXTS_spec (x : string) :
  x ∈ AUDIO_EXTS <-> x ∈ (fun e => Py.lower ("." ++ e)) <$> audio_extensions.
Proof.
  unfold AUDIO_EXTS, audio_extensions. vm_compute fmap.
  rewrite !elem_of_union, !elem_of_singleton, !elem_of_cons, elem_of_nil. tauto.
Qed.

Lemma VIDEO_EXTS_spec (x : string) :
  x ∈ VIDEO_EXTS <-> x ∈ (fun e => Py.lower ("." ++ e)) <$> video_extensions.
Proof.
  unfold VIDEO_EXTS, video_extensions. vm_compute fmap.
  rewrite !elem_of_union, !elem_of_singleton, !elem_of_cons, elem_of_nil. tauto.
Qed.

Lemma exts_disjoint : AUDIO_EXTS ## VIDEO_EXTS.
Proof.
  apply elem_of_disjoint. intros x Ha Hv.
  apply AUDIO_EXTS_spec in Ha. apply VIDEO_EXTS_spec in Hv.
  vm_compute fmap in Ha, Hv.
  rewrite !elem_of_cons, elem_of_nil in Ha.
  rewrite !elem_of_cons, elem_of_nil in Hv.
  intuition (subst; discriminate).
Qed.

Lemma audio_not_video (e : string) : e ∈ audio_extensions -> e ∉ video_extensions.
Proof.
  unfold audio_extensions, video_extensions. intros He Hv.
  rewrite !elem_of_cons, elem_of_nil in He.
  rewrite !elem_of_cons, elem_of_nil in Hv.
  intuition (subst; discriminate).
Qed.

Lemma in_all_ascii (a : ascii) : In a all_ascii.
Proof.
  unfold all_ascii. rewrite <- (ascii_nat_embedding a).
  apply in_map, in_seq. pose proof (nat_ascii_bounded a). lia.
Qed.

(** Letter case apart is what [str.lower] forgets. *)
Lemma same_letter_lower (a b : ascii) :
  same_letter a b = Ascii.eqb (Py.lower_char a) (Py.lower_char b).
Proof.
  assert (Hall : forallb (fun a => forallb (fun b =>
                   Bool.eqb (same_letter a b)
                            (Ascii.eqb (Py.lower_char a) (Py.lower_char b)))
                   all_ascii) all_ascii = true)
    by (vm_compute; reflexivity).
  rewrite forallb_forall in Hall. specialize (Hall a (in_all_ascii a)).
  rewrite forallb_forall in Hall. specialize (Hall b (in_all_ascii b)).
  apply Bool.eqb_prop, Hall.
Qed.

Lemma case_apart_lower (s t : string) :
  case_apart s t = true <-> Py.lower s = Py.lower t.
Proof.
  revert t. induction s as [|a s IH]; intros [|b t]; cbn [case_apart Py.lower];
    try (split; [reflexivity | reflexivity]); try (split; discriminate).
  rewrite andb_true_iff, same_letter_lower, Ascii.eqb_eq, IH. split.
  - intros [-> ->]. reflexivity.
  - intros [= -> ->]. split; reflexivity.
Qed.

Section ClassifierFacts.
Context {os : OsPath}.

(** The index of the last separator of a path that ends with its last
    component and the extension. *)
Lemma rfind_sep_dir (c : ascii) (dir tail : string) :
  Py.all_chars (fun d => negb (Ascii.eqb d c)) tail = true ->
  Py.rfind c (dir ++ tail) = Py.rfind c dir.
Proof.
  intros Ht. rewrite rfind_append, (rfind_absent c tail Ht). reflexivity.
Qed.

Lemma sep_index (dir tail : string) :
  dir_prefix dir ->
  Py.all_chars (fun c => negb (is_sep c)) tail = true ->
  match altsep with
  | Some a => Z.max (Py.rfind sep (dir ++ tail)) (Py.rfind a (dir ++ tail))
  | None => Py.rfind sep (dir ++ tail)
  end = (Z.of_nat (String.length dir) - 1)%Z.
Proof.
  intros Hdir Ht. unfold is_sep in Ht.
  assert (Hs : Py.rfind sep (dir ++ tail) = Py.rfind sep dir).
  { apply rfind_sep_dir. revert Ht. apply all_chars_impl.
    intros c Hc. apply negb_true_iff in Hc. apply orb_false_iff in Hc as [-> _].
    reflexivity. }
  rewrite Hs. pose proof (rfind_bounds sep dir) as Hbs.
  destruct Hdir as [->|Hend].
  { simpl. destruct altsep as [a|]; [|reflexivity].
    rewrite rfind_absent; [reflexivity|].
    revert Ht. apply all_chars_impl.
    intros c Hc. apply negb_true_iff in Hc. apply orb_false_iff in Hc as [_ ->].
    reflexivity. }
  unfold dir_prefix, is_sep in *.
  destruct altsep as [a|].
  - assert (Ha : Py.rfind a (dir ++ tail) = Py.rfind a dir).
    { apply rfind_sep_dir. revert Ht. apply all_chars_impl.
      intros c Hc. apply negb_true_iff in Hc. apply orb_false_iff in Hc as [_ ->].
      reflexivity. }
    rewrite Ha. pose proof (rfind_bounds a dir) as Hba.
    assert (Hlast : Py.ends_by (fun d => Ascii.eqb d sep) dir = true
                    \/ Py.ends_by (fun d => Ascii.eqb d a) dir = true).
    { clear -Hend. induction dir as [|d dir IH]; [discriminate|].
      destruct dir as [|e dir]; simpl in *.
      - apply orb_true_iff in Hend. exact Hend.
      - apply IH, Hend. }
    destruct Hlast as [Hl|Hl]; apply rfind_last in Hl; lia.
  - assert (Hlast : Py.ends_by (fun d => Ascii.eqb d sep) dir = true).
    { clear -Hend. induction dir as [|d dir IH]; [discriminate|].
      destruct dir as [|e dir]; simpl in *.
      - rewrite orb_false_r in Hend. exact Hend.
      - apply IH, Hend. }
    apply rfind_last in Hlast. exact Hlast.
Qed.

(** What [splitext] takes for the extension: the text from the last dot of
    the last component on, when something other than dots precedes it. *)
Lemma splitext_name_ext (dir name ext : string) :
  is_sep "." = false -> dir_prefix dir -> plain_name name -> plain_ext ext ->
  splitext (dir ++ name ++ "." ++ ext) = (dir ++ name, "." ++ ext)%string.
Proof.
  intros Hdot Hdir [Hname Hnondot] Hext. unfold splitext, plain_ext in *.
  assert (Htail : Py.all_chars (fun c => negb (is_sep c)) (name ++ "." ++ ext) = true).
  { rewrite all_chars_append, Hname. cbn [String.append Py.all_chars].
    rewrite Hdot. simpl. revert Hext. apply all_chars_impl.
    intros c [Hc _]%andb_true_iff. exact Hc. }
  rewrite (sep_index dir _ Hdir Htail).
  assert (Hd : Py.rfind "." (dir ++ name ++ "." ++ ext)
               = Z.of_nat (String.length (dir ++ name))).
  { rewrite <- append_assoc, rfind_append. cbn [String.append Py.rfind].
    rewrite rfind_absent.
    - simpl. lia.
    - revert Hext. apply all_chars_impl.
      intros c [_ Hc]%andb_true_iff. exact Hc. }
  rewrite Hd, length_append.
  replace (Z.of_nat (String.length dir) - 1 <? Z.of_nat (String.length dir + String.length name))%Z
    with true by (symmetry; apply Z.ltb_lt; lia).
  replace (Z.to_nat (Z.of_nat (String.length dir + String.length name)
                     - (Z.of_nat (String.length dir) - 1 + 1)))
    with (String.length name) by lia.
  replace (Z.to_nat (Z.of_nat (String.length dir) - 1 + 1)) with (String.length dir) by lia.
  rewrite has_non_dot_name. unfold is_dot in Hnondot. rewrite Hnondot. simpl.
  rewrite Nat2Z.id, <- length_append, <- append_assoc.
  rewrite take_append, drop_append. reflexivity.
Qed.

(** [splitext] on a path that ends with a component [name], a dot and a
    text without dot: the dot starts the extension unless [name] is dots
    only. *)
Lemma splitext_last_dot (dir name ext : string) :
  is_sep "." = false -> dir_prefix dir ->
  Py.all_chars (fun c => negb (is_sep c)) name = true -> plain_ext ext ->
  splitext (dir ++ name ++ "." ++ ext)
  = if Py.all_chars is_dot name then ((dir ++ name ++ "." ++ ext)%string, EmptyString)
    else ((dir ++ name)%string, ("." ++ ext)%string).
Proof.
  intros Hdot Hdir Hname Hext. unfold splitext, plain_ext in *.
  assert (Htail : Py.all_chars (fun c => negb (is_sep c)) (name ++ "." ++ ext) = true).
  { rewrite all_chars_append, Hname. cbn [String.append Py.all_chars].
    rewrite Hdot. simpl. revert Hext. apply all_chars_impl.
    intros c [Hc _]%andb_true_iff. exact Hc. }
  rewrite (sep_index dir _ Hdir Htail).
  assert (Hd : Py.rfind "." (dir ++ name ++ "." ++ ext)
               = Z.of_nat (String.length (dir ++ name))).
  { rewrite <- append_assoc, rfind_append. cbn [String.append Py.rfind].
    rewrite rfind_absent.
    - simpl. lia.
    - revert Hext. apply all_chars_impl.
      intros c [_ Hc]%andb_true_iff. exact Hc. }
  rewrite Hd, length_append.
  replace (Z.of_nat (String.length dir) - 1 <? Z.of_nat (String.length dir + String.length name))%Z
    with true by (symmetry; apply Z.ltb_lt; lia).
  replace (Z.to_nat (Z.of_nat (String.length dir + String.length name)
                     - (Z.of_nat (String.length dir) - 1 + 1)))
    with (String.length name) by lia.
  replace (Z.to_nat (Z.of_nat (String.length dir) - 1 + 1)) with (String.length dir) by lia.
  rewrite has_non_dot_name. unfold is_dot.
  destruct (Py.all_chars (fun c => Ascii.eqb c ".") name); [reflexivity|]. simpl.
  rewrite Nat2Z.id, <- length_append, <- append_assoc.
  rewrite take_append, drop_append. reflexivity.
Qed.

(** [splitext] on a path whose last component has no dot. *)
Lemma splitext_no_dot (dir rest : string) :
  dir_prefix dir -> plain_ext rest ->
  splitext (dir ++ rest) = ((dir ++ rest)%string, EmptyString).
Proof.
  intros Hdir Hrest. unfold splitext, plain_ext in *.
  assert (Hsepfree : Py.all_chars (fun c => negb (is_sep c)) rest = true).
  { revert Hrest. apply all_chars_impl. intros c [Hc _]%andb_true_iff. exact Hc. }
  rewrite (sep_index dir _ Hdir Hsepfree).
  assert (Hd : Py.rfind "." (dir ++ rest) = Py.rfind "." dir).
  { apply rfind_sep_dir. revert Hrest. apply all_chars_impl.
    intros c [_ Hc]%andb_true_iff. exact Hc. }
  rewrite Hd. pose proof (rfind_bounds "." dir) as Hb.
  replace (Z.of_nat (String.length dir) - 1 <? Py.rfind "." dir)%Z with false
    by (symmetry; apply Z.ltb_ge; lia).
  reflexivity.
Qed.

(** Every path is a directory part followed by a last component. *)
Lemma last_component (p : string) :
  exists dir comp,
    p = (dir ++ comp)%string /\ dir_prefix dir
    /\ Py.all_chars (fun c => negb (is_sep c)) comp = true.
Proof.
  induction p as [|c p (dir & comp & -> & Hdir & Hcomp)].
  - exists EmptyString, EmptyString. repeat split. left. reflexivity.
  - destruct Hdir as [->|Hend].
    + destruct (is_sep c) eqn:Hc.
      * exists (String c EmptyString), comp. repeat split; [|exact Hcomp].
        right. simpl. exact Hc.
      * exists EmptyString, (String c comp). repeat split; [left; reflexivity|].
        cbn [Py.all_chars]. rewrite Hc, Hcomp. reflexivity.
    + exists (String c dir), comp. repeat split; [|exact Hcomp].
      right. destruct dir as [|d dir]; [discriminate|]. exact Hend.
Qed.

(** The three shapes of a last component: with an extension, dots only
    before its last dot, or no dot at all. *)
Lemma component_shape (comp : string) :
  is_sep "." = false ->
  Py.all_chars (fun c => negb (is_sep c)) comp = true ->
  (exists name ext, comp = (name ++ "." ++ ext)%string /\ plain_name name /\ plain_ext ext)
  \/ (exists dots ext, comp = (dots ++ "." ++ ext)%string
                       /\ Py.all_chars is_dot dots = true /\ plain_ext ext)
  \/ plain_ext comp.
Proof.
  intros Hdot. induction comp as [|c comp IH]; intros Hcomp.
  - right. right. reflexivity.
  - cbn [Py.all_chars] in Hcomp. apply andb_true_iff in Hcomp as [Hc Hcomp].
    destruct (IH Hcomp) as [(name & ext & -> & [Hname Hnd] & Hext)
                           |[(dots & ext & -> & Hdots & Hext)|Hplain]].
    + left. exists (String c name), ext. repeat split; [| |exact Hext].
      * cbn [Py.all_chars]. rewrite Hc, Hname. reflexivity.
      * cbn [Py.all_chars]. rewrite Hnd. apply andb_false_r.
    + destruct (is_dot c) eqn:Hcd.
      * right. left. exists (String c dots), ext. repeat split; [|exact Hext].
        cbn [Py.all_chars]. rewrite Hcd, Hdots. reflexivity.
      * left. exists (String c dots), ext. repeat split; [| |exact Hext].
        -- cbn [Py.all_chars]. rewrite Hc. cbn [andb].
           revert Hdots. apply all_chars_impl. intros d Hd.
           apply Ascii.eqb_eq in Hd. subst d. rewrite Hdot. reflexivity.
        -- cbn [Py.all_chars]. rewrite Hcd. reflexivity.
    + destruct (is_dot c) eqn:Hcd.
      * right. left. exists EmptyString, comp. repeat split; [|exact Hplain].
        apply Ascii.eqb_eq in Hcd. subst c. reflexivity.
      * right. right. unfold plain_ext in *. cbn [Py.all_chars].
        rewrite Hc, Hcd, Hplain. reflexivity.
Qed.

(** A path has an extension, or [splitext] splits nothing off. *)
Lemma path_shape (p : string) :
  is_sep "." = false -> (exists ext, extension_of p ext) \/ (splitext p).2 = EmptyString.
Proof.
  intros Hdot. destruct (last_component p) as (dir & comp & -> & Hdir & Hcomp).
  destruct (component_shape comp Hdot Hcomp)
    as [(name & ext & -> & Hname & Hext)|[(dots & ext & -> & Hdots & Hext)|Hplain]].
  - left. exists ext, dir, name. auto.
  - right. rewrite splitext_last_dot, Hdots; auto.
    revert Hdots. apply all_chars_impl. intros d Hd.
    apply Ascii.eqb_eq in Hd. subst d. rewrite Hdot. reflexivity.
  - right. rewrite splitext_no_dot; auto.
Qed.

Lemma extension_of_splitext (p ext : string) :
  is_sep "." = false -> extension_of p ext -> (splitext p).2 = ("." ++ ext)%string.
Proof.
  intros Hdot (dir & name & -> & Hdir & Hname & Hext).
  rewrite (splitext_name_ext dir name ext Hdot Hdir Hname Hext). reflexivity.
Qed.

Lemma is_audio_spec (path : string) :
  is_sep "." = false ->
  is_audio path = true <-> exists e, e ∈ audio_extensions /\ has_extension path e.
Proof.
  intros Hdot. unfold is_audio.
  rewrite bool_decide_eq_true, AUDIO_EXTS_spec, list_elem_of_fmap. split.
  - intros (e & Heq & He). exists e. split; [exact He|].
    destruct (path_shape path Hdot) as [(ext & Hext)|Hnone].
    + exists ext. split; [exact Hext|].
      rewrite (extension_of_splitext path ext Hdot Hext) in Heq.
      cbn [String.append Py.lower] in Heq. injection Heq as Heq.
      apply case_apart_lower, Heq.
    + rewrite Hnone in Heq. discriminate.
  - intros (e & He & ext & Hext & Hcase). exists e. split; [|exact He].
    rewrite (extension_of_splitext path ext Hdot Hext).
    cbn [String.append Py.lower]. f_equal. apply case_apart_lower, Hcase.
Qed.

Lemma is_video_spec (path : string) :
  is_sep "." = false ->
  is_video path = true <-> exists e, e ∈ video_extensions /\ has_extension path e.
Proof.
  intros Hdot. unfold is_video.
  rewrite bool_decide_eq_true, VIDEO_EXTS_spec, list_elem_of_fmap. split.
  - intros (e & Heq & He). exists e. split; [exact He|].
    destruct (path_shape path Hdot) as [(ext & Hext)|Hnone].
    + exists ext. split; [exact Hext|].
      rewrite (extension_of_splitext path ext Hdot Hext) in Heq.
      cbn [String.append Py.lower] in Heq. injection Heq as Heq.
      apply case_apart_lower, Heq.
    + rewrite Hnone in Heq. discriminate.
  - intros (e & He & ext & Hext & Hcase). exists e. split; [|exact He].
    rewrite (extension_of_splitext path ext Hdot Hext).
    cbn [String.append Py.lower]. f_equal. apply case_apart_lower, Hcase.
Qed.

Lemma not_audio_and_video (path : string) :
  ~ (is_audio path = true /\ is_video path = true).
Proof.
  unfold is_audio, is_video. rewrite !bool_decide_eq_true.
  intros [Ha Hv]. exact (proj1 (elem_of_disjoint _ _) exts_disjoint _ Ha Hv).
Qed.

(** C5. The classifier is a total function of the path alone.  The file
    extension of a path is the text after the last dot of its last
    component, when something other than dots comes before that dot in the
    component; [os.path.splitext] splits off the dot and that text, and
    nothing from a path without extension.  Two texts are the same, letter
    case apart, when they have the same characters but for letters written
    once as a capital and once small.  A path is Audio exactly when its
    extension is, letter case apart, one of aac, m4a, mp3, wav, flac, ogg,
    opus, wma, ac3; Video exactly when it is one of mp4, mkv, mov, webm,
    m4v, avi, ts; and Other exactly when it is none of these, a path
    without extension included.  The two sets of extensions are disjoint
    and no path is both audio and video.  The separators of paths are taken
    not to be the dot. *)
Theorem classifier (path : string) :
  is_sep "." = false ->
  (forall ext, extension_of path ext -> (splitext path).2 = ("." ++ ext)%string)
  /\ ((forall ext, ~ extension_of path ext) -> (splitext path).2 = EmptyString)
  /\ (classify path = Audio <-> exists e, e ∈ audio_extensions /\ has_extension path e)
  /\ (classify path = Video <-> exists e, e ∈ video_extensions /\ has_extension path e)
  /\ (classify path = Other
      <-> forall e, e ∈ audio_extensions ++ video_extensions -> ~ has_extension path e)
  /\ (classify path = Audio <-> is_audio path = true)
  /\ (classify path = Video <-> is_video path = true)
  /\ AUDIO_EXTS ## VIDEO_EXTS
  /\ (forall e, e ∈ audio_extensions -> e ∉ video_extensions)
  /\ ~ (is_audio path = true /\ is_video path = true).
Proof.
  intros Hdot.
  split; [intros ext; apply extension_of_splitext, Hdot|].
  split.
  { intros Hnone. destruct (path_shape path Hdot) as [(ext & Hext)|Hempty]; [|exact Hempty].
    destruct (Hnone ext Hext). }
  pose proof (not_audio_and_video path) as Hnot.
  pose proof (is_audio_spec path Hdot) as Ha. pose proof (is_video_spec path Hdot) as Hv.
  assert (Hother : (forall e, e ∈ audio_extensions ++ video_extensions -> ~ has_extension path e)
                   <-> is_audio path = false /\ is_video path = false).
  { split.
    - intros Hnone. split.
      + destruct (is_audio path); [|reflexivity].
        destruct (proj1 Ha eq_refl) as (e & He & Hext).
        destruct (Hnone e); [apply elem_of_app; auto | exact Hext].
      + destruct (is_video path); [|reflexivity].
        destruct (proj1 Hv eq_refl) as (e & He & Hext).
        destruct (Hnone e); [apply elem_of_app; auto | exact Hext].
    - intros [Hna Hnv] e [He|He]%elem_of_app Hext.
      + assert (is_audio path = true) by (apply Ha; eauto). congruence.
      + assert (is_video path = true) by (apply Hv; eauto). congruence. }
  rewrite <- Ha, <- Hv, Hother. unfold classify.
  destruct (is_audio path), (is_video path);
    repeat split; try reflexivity; try discriminate; try apply exts_disjoint;
    try apply audio_not_video; try (intros [? ?]; discriminate); try tauto.
Qed.

End ClassifierFacts.

(** ** The executable locator *)

Lemma split_nonempty (c : ascii) (s : string) : Py.split c s <> [].
Proof.
  destruct s as [|d s]; simpl; [discriminate|].
  destruct (Ascii.eqb d c); [discriminate|].
  destruct (Py.split c s); discriminate.
Qed.

(** [split] cuts the text at each separator and nowhere else. *)
Lemma split_join (c : ascii) (s : string) :
  Py.join c (Py.split c s) = s
  /\ Forall (fun entry => Py.chr_in c entry = false) (Py.split c s).
Proof.
  induction s as [|d s [IHj IHf]]; simpl.
  - split; [reflexivity | repeat constructor].
  - destruct (Ascii.eqb d c) eqn:E.
    + apply Ascii.eqb_eq in E. subst d. split.
      * pose proof (split_nonempty c s).
        destruct (Py.split c s); [contradiction|]. simpl in *. congruence.
      * constructor; [reflexivity | assumption].
    + pose proof (split_nonempty c s).
      destruct (Py.split c s) as [|h t]; [contradiction|]. split.
      * destruct t; simpl in *; congruence.
      * inversion IHf; subst. constructor; [|assumption].
        simpl. rewrite Ascii.eqb_sym, E. assumption.
Qed.

Section Locator.
Context {os : OsPath}.

Lemma which_ffmpeg_loop_first (w : world) (before after : list string) (p : string) :
  Forall (fun q => isfile w (candidate_of q) = false) before ->
  isfile w (candidate_of p) = true ->
  which_ffmpeg_loop w (before ++ p :: after) = Some (candidate_of p).
Proof.
  intros Hb Hp. induction Hb as [|q before Hq _ IH]; simpl.
  - fold (candidate_of p). rewrite Hp. reflexivity.
  - fold (candidate_of q). rewrite Hq. exact IH.
Qed.

Lemma which_ffmpeg_loop_none (w : world) (entries : list string) :
  Forall (fun q => isfile w (candidate_of q) = false) entries ->
  which_ffmpeg_loop w entries = None.
Proof.
  intros Hall. induction Hall as [|q entries Hq _ IH]; simpl; [reflexivity|].
  fold (candidate_of q). rewrite Hq. exact IH.
Qed.

(** C6. [which_ffmpeg] returns a path for every state of the surroundings.
    The name it looks for is [ffmpeg.exe] on Windows and [ffmpeg]
    elsewhere.  The entries of [PATH] are the pieces between its
    separators, in order; the first entry whose candidate (the entry
    without double quotes at its ends, joined with the name) is a regular
    file decides the result.  When no entry has one, the result is the
    name joined to the directory of the script if that is a regular file,
    and the bare name otherwise. *)
Theorem which_ffmpeg_search_order (w : world) :
  let entries := Py.split pathsep (default EmptyString (environ w !! "PATH")) in
  let local := path_join (script_dir w) exe in
  exe = (if String.eqb os_name "nt" then "ffmpeg.exe" else "ffmpeg")
  /\ Py.join pathsep entries = default EmptyString (environ w !! "PATH")
  /\ Forall (fun entry => Py.chr_in pathsep entry = false) entries
  /\ (forall before p after,
        entries = before ++ p :: after ->
        Forall (fun q => isfile w (candidate_of q) = false) before ->
        isfile w (candidate_of p) = true ->
        which_ffmpeg w = path_join (Py.strip_chars (String Py.dquote EmptyString) p) exe)
  /\ (Forall (fun q => isfile w (candidate_of q) = false) entries ->
      isfile w local = true -> which_ffmpeg w = local)
  /\ (Forall (fun q => isfile w (candidate_of q) = false) entries ->
      isfile w local = false -> which_ffmpeg w = exe).
Proof.
  intros entries local.
  destruct (split_join pathsep (default EmptyString (environ w !! "PATH"))) as [Hj Hf].
  split; [reflexivity|]. split; [exact Hj|]. split; [exact Hf|].
  unfold which_ffmpeg. fold entries. fold local. repeat split.
  - intros before p after -> Hb Hp.
    rewrite (which_ffmpeg_loop_first w before after p Hb Hp). reflexivity.
  - intros Hall Hl. rewrite (which_ffmpeg_loop_none w entries Hall), Hl. reflexivity.
  - intros Hall Hl. rewrite (which_ffmpeg_loop_none w entries Hall), Hl. reflexivity.
Qed.

End Locator.

(** ** The shape of a merge attempt *)

Lemma output_written_spec (w : world) (p : string) :
  output_written w p = true
  <-> exists_ w p = true /\ exists n, getsize w p = Ok n /\ (0 < n)%N.
Proof.
  unfold output_written, exists_, getsize.
  destruct (fs w !! p) as [[data r wr|n]|]; split.
  - intros Hn. split; [reflexivity|]. eexists. split; [reflexivity|].
    apply negb_true_iff, Nat.eqb_neq in Hn. lia.
  - intros (_ & n & [= <-] & Hn). apply negb_true_iff, Nat.eqb_neq. lia.
  - intros Hn. split; [reflexivity|]. exists n. split; [reflexivity|].
    apply negb_true_iff, N.eqb_neq in Hn. lia.
  - intros (_ & m & [= <-] & Hn). apply negb_true_iff, N.eqb_neq. lia.
  - discriminate.
  - intros ([=] & _).
Qed.

(** The condition of [merge_now] never raises: [getsize] is only reached for
    a path that exists. *)
Lemma merge_failed_total (proc : CompletedProcess) (w : world) (outfile : string) :
  merge_failed proc w outfile
  = Ok (negb ((returncode proc =? 0)%Z && output_written w outfile)).
Proof.
  unfold merge_failed, output_written, exists_, getsize.
  destruct (returncode proc =? 0)%Z; simpl; [|reflexivity].
  destruct (fs w !! outfile) as [[data r wr|n]|]; simpl; try reflexivity.
  - f_equal. destruct data; reflexivity.
  - f_equal. destruct n; reflexivity.
Qed.

(** The six tests the four checks of [merge_now] are made of. *)
Ltac split_checks self w :=
  destruct (Py.truthy (Py.strip_chars quote_space (audio_var self))),
    (isfile w (Py.strip_chars quote_space (audio_var self))),
    (Py.truthy (Py.strip_chars quote_space (video_var self))),
    (isfile w (Py.strip_chars quote_space (video_var self))),
    (Py.truthy (Py.strip_chars quote_space (outdir_var self))),
    (isdir w (Py.strip_chars quote_space (outdir_var self)));
  cbn [negb orb andb].

Section Validation.
Context {os : OsPath}.

Lemma merge_now_rejects run (self : App) (w : world) (c : check) :
  first_failing w (audio_of self) (video_of self) (outdir_of self) = Some c ->
  merge_now run self w = (self, w, [validation_error c]).
Proof.
  unfold first_failing, checks_in_order, holds, merge_now, audio_of, video_of, outdir_of.
  cbn [find]. split_checks self w; intros [= <-]; reflexivity.
Qed.

Lemma merge_now_accepts run (self : App) (w : world) :
  first_failing w (audio_of self) (video_of self) (outdir_of self) = None ->
  merge_now run self w
  = merge_now_run run self w (audio_of self) (video_of self) (outdir_of self).
Proof.
  unfold first_failing, checks_in_order, holds, merge_now, audio_of, video_of, outdir_of.
  cbn [find]. split_checks self w; intros [=]; reflexivity.
Qed.

End Validation.

Section Merge.
Context {os : OsPath}.
Variable subprocess_run : list string -> world -> res CompletedProcess * world.

(** The three ways the [try] statement ends. *)
Lemma merge_now_run_completed (self : App) (w w' : world) (audio video outdir : string)
    (proc : CompletedProcess) :
  let outfile := path_join outdir (timestamp w ++ ".mp4") in
  let cmd := merge_cmd (which_ffmpeg w) audio video outfile in
  subprocess_run cmd w = (Ok proc, w') ->
  merge_now_run subprocess_run self w audio video outdir
  = if (returncode proc =? 0)%Z && output_written w' outfile
    then (set_video_var (set_audio_var
            (set_status_var (set_merge_btn
               (set_status_var (set_merge_btn self DISABLED) "正在合并...") NORMAL)
               ("成功：" ++ outfile)) EmptyString) EmptyString,
          w',
          [update_idletasks; subprocess_run_call cmd; success_box outfile;
           audio_entry_focus_set])
    else (set_merge_btn (set_status_var
            (set_status_var (set_merge_btn self DISABLED) "正在合并...") "失败。") NORMAL,
          w',
          [update_idletasks; subprocess_run_call cmd; process_error (reason_of proc)]).
Proof.
  intros outfile cmd Hrun. unfold merge_now_run.
  fold outfile. fold cmd. rewrite Hrun. simpl.
  rewrite merge_failed_total. simpl.
  destruct ((returncode proc =? 0)%Z && output_written w' outfile); reflexivity.
Qed.

Lemma merge_now_run_raised (self : App) (w w' : world) (audio video outdir : string)
    (e : exn) :
  let outfile := path_join outdir (timestamp w ++ ".mp4") in
  let cmd := merge_cmd (which_ffmpeg w) audio video outfile in
  subprocess_run cmd w = (Raise e, w') ->
  merge_now_run subprocess_run self w audio video outdir
  = if is_FileNotFoundError e
    then (set_merge_btn (set_status_var
            (set_status_var (set_merge_btn self DISABLED) "正在合并...") "未找到 ffmpeg。") NORMAL,
          w', [update_idletasks; subprocess_run_call cmd; not_found])
    else (set_merge_btn (set_status_var
            (set_status_var (set_merge_btn self DISABLED) "正在合并...") "错误。") NORMAL,
          w', [update_idletasks; subprocess_run_call cmd; other_error (exn_str e)]).
Proof.
  intros outfile cmd Hrun. unfold merge_now_run.
  fold outfile. fold cmd. rewrite Hrun. simpl. reflexivity.
Qed.

Lemma merge_now_run_log (self : App) (w : world) (audio video outdir : string) :
  exists rest,
    (merge_now_run subprocess_run self w audio video outdir).2
    = update_idletasks
      :: subprocess_run_call
           (merge_cmd (which_ffmpeg w) audio video (path_join outdir (timestamp w ++ ".mp4")))
      :: rest
    /\ launches rest = false.
Proof.
  destruct (subprocess_run
              (merge_cmd (which_ffmpeg w) audio video (path_join outdir (timestamp w ++ ".mp4"))) w)
    as [[proc|e] w'] eqn:Hrun.
  - rewrite (merge_now_run_completed _ _ _ _ _ _ _ Hrun).
    destruct (_ && _); eexists; split; reflexivity.
  - rewrite (merge_now_run_raised _ _ _ _ _ _ _ Hrun).
    destruct (is_FileNotFoundError e); eexists; split; reflexivity.
Qed.

(** [first_failing] names a check that fails while those before it hold. *)
Lemma first_failing_first (w : world) (audio video outdir : string) (c : check) :
  first_failing w audio video outdir = Some c
  <-> holds w audio video outdir c = false
      /\ forall c', check_index c' < check_index c -> holds w audio video outdir c' = true.
Proof.
  unfold first_failing, checks_in_order. cbn [find]. split.
  - destruct (holds w audio video outdir AudioIsFile) eqn:H1; cbn [negb];
      [|intros [= <-]; split; [assumption | intros c'; simpl; lia]].
    destruct (holds w audio video outdir VideoIsFile) eqn:H2; cbn [negb];
      [|intros [= <-]; split;
        [assumption | intros [] Hc; cbn [check_index] in Hc; try lia; assumption]].
    destruct (holds w audio video outdir OutdirGiven) eqn:H3; cbn [negb];
      [|intros [= <-]; split;
        [assumption | intros [] Hc; cbn [check_index] in Hc; try lia; assumption]].
    destruct (holds w audio video outdir OutdirIsDir) eqn:H4; cbn [negb];
      [|intros [= <-]; split;
        [assumption | intros [] Hc; cbn [check_index] in Hc; try lia; assumption]].
    discriminate.
  - intros [Hc Hbefore]. destruct c.
    + rewrite Hc. reflexivity.
    + rewrite (Hbefore AudioIsFile) by (simpl; lia). cbn [negb]. rewrite Hc. reflexivity.
    + rewrite (Hbefore AudioIsFile), (Hbefore VideoIsFile) by (simpl; lia).
      cbn [negb]. rewrite Hc. reflexivity.
    + rewrite (Hbefore AudioIsFile), (Hbefore VideoIsFile), (Hbefore OutdirGiven)
        by (simpl; lia).
      cbn [negb]. rewrite Hc. reflexivity.
Qed.

(** C2. [merge_now] makes the four checks of the specification in its order
    (audio is an existing file, video is an existing file, an output
    directory is given, it is an existing directory).  When one fails, the
    call shows the error box of the first failing check and nothing else,
    leaves the form and the file system as they were, and does not start the
    external process: its result is the same whatever that process would do.
    When none fails the process is started. *)
Theorem validation_short_circuits (self : App) (w : world) :
  match first_failing w (audio_of self) (video_of self) (outdir_of self) with
  | Some c =>
      merge_now subprocess_run self w = (self, w, [validation_error c])
      /\ launches (merge_now subprocess_run self w).2 = false
      /\ forall other_run, merge_now other_run self w = merge_now subprocess_run self w
  | None => launches (merge_now subprocess_run self w).2 = true
  end.
Proof.
  destruct (first_failing w (audio_of self) (video_of self) (outdir_of self)) as [c|] eqn:Hc.
  - rewrite (merge_now_rejects _ _ _ _ Hc). repeat split.
    intros other_run. apply merge_now_rejects, Hc.
  - rewrite (merge_now_accepts _ _ _ Hc).
    destruct (merge_now_run_log self w (audio_of self) (video_of self) (outdir_of self))
      as (rest & -> & _).
    reflexivity.
Qed.

(** C4. Past validation, the external process is started once, with exactly
    this argument list: the located executable; [-hide_banner],
    [-loglevel error]; [-y]; [-nostdin]; [-i] and the audio path, then [-i]
    and the video path; [-acodec copy], [-vcodec copy]; and last the output
    path. *)
Theorem command_line (self : App) (w : world) :
  first_failing w (audio_of self) (video_of self) (outdir_of self) = None ->
  exists rest,
    (merge_now subprocess_run self w).2
    = update_idletasks
      :: subprocess_run_call
           [which_ffmpeg w; "-hide_banner"; "-loglevel"; "error"; "-y"; "-nostdin";
            "-i"; audio_of self; "-i"; video_of self;
            "-acodec"; "copy"; "-vcodec"; "copy";
            path_join (outdir_of self) (timestamp w ++ ".mp4")]
      :: rest
    /\ launches rest = false.
Proof.
  intros Hc. rewrite (merge_now_accepts _ _ _ Hc). apply merge_now_run_log.
Qed.

(** What [merge_now_run] shows and leaves on disk does not depend on the
    form: only on the three stripped values it is given. *)
Lemma merge_now_run_form (self self' : App) (w : world) (audio video outdir : string) :
  (merge_now_run subprocess_run self w audio video outdir).2
  = (merge_now_run subprocess_run self' w audio video outdir).2
  /\ (merge_now_run subprocess_run self w audio video outdir).1.2
     = (merge_now_run subprocess_run self' w audio video outdir).1.2.
Proof.
  destruct (subprocess_run
              (merge_cmd (which_ffmpeg w) audio video (path_join outdir (timestamp w ++ ".mp4"))) w)
    as [[proc|e] w'] eqn:Hrun.
  - rewrite !(merge_now_run_completed _ _ _ _ _ _ _ Hrun).
    destruct (_ && _); split; reflexivity.
  - rewrite !(merge_now_run_raised _ _ _ _ _ _ _ Hrun).
    destruct (is_FileNotFoundError e); split; reflexivity.
Qed.

Lemma stripped_form_inputs (self : App) :
  audio_of (stripped_form self) = audio_of self
  /\ video_of (stripped_form self) = video_of self
  /\ outdir_of (stripped_form self) = outdir_of self.
Proof.
  unfold stripped_form. unfold audio_of, video_of, outdir_of, Py.strip_chars.
  cbn [audio_var video_var outdir_var set_outdir_var set_video_var set_audio_var].
  rewrite !strip_by_idem. repeat split.
Qed.

(** C1, as the code has it.  Of a merge attempt that passed validation:
    when [subprocess.run] returned, the attempt succeeds (completion box
    naming the output path) exactly when the exit status is zero and the
    output path exists with a size above zero, and otherwise it shows a
    process error whose reason is the captured standard error with the white
    space at its two ends removed if that leaves something, else the
    captured standard output treated the same way, else [Unknown error.];
    when [subprocess.run] raised [FileNotFoundError], it shows the
    not-found box; when it raised anything else, be it before the process
    started or after it ended (output that cannot be decoded), an error
    box with the text of the exception. *)
Theorem merge_outcome (self : App) (w : world) :
  first_failing w (audio_of self) (video_of self) (outdir_of self) = None ->
  let outfile := path_join (outdir_of self) (timestamp w ++ ".mp4") in
  let cmd := merge_cmd (which_ffmpeg w) (audio_of self) (video_of self) outfile in
  let log := (merge_now subprocess_run self w).2 in
  match subprocess_run cmd w with
  | (Ok proc, w') =>
      (succeeded log = true
       <-> returncode proc = 0%Z /\ exists_ w' outfile = true
           /\ exists n, getsize w' outfile = Ok n /\ (0 < n)%N)
      /\ (succeeded log = true ->
          log = [update_idletasks; subprocess_run_call cmd; success_box outfile;
                 audio_entry_focus_set])
      /\ (succeeded log = false ->
          log = [update_idletasks; subprocess_run_call cmd;
                 process_error
                   (Py.or_ (Py.strip (stderr proc))
                      (Py.or_ (Py.strip (stdout proc)) "Unknown error."))])
  | (Raise e, w') =>
      log = [update_idletasks; subprocess_run_call cmd;
             if is_FileNotFoundError e then not_found else other_error (exn_str e)]
  end.
Proof.
  intros Hc outfile cmd log. subst log. rewrite (merge_now_accepts _ _ _ Hc).
  destruct (subprocess_run cmd w) as [[proc|e] w'] eqn:Hrun.
  - rewrite (merge_now_run_completed _ _ _ _ _ _ _ Hrun). fold outfile. fold cmd.
    rewrite <- output_written_spec.
    destruct (returncode proc =? 0)%Z eqn:Hrc; cbn [andb].
    + apply Z.eqb_eq in Hrc.
      destruct (output_written w' outfile); cbn [snd succeeded existsb is_showinfo orb].
      * repeat split; auto; discriminate.
      * repeat split; try discriminate; auto. intros (_ & [=]).
    + apply Z.eqb_neq in Hrc. cbn [snd succeeded existsb is_showinfo orb].
      repeat split; try discriminate; auto. intros (? & _). contradiction.
  - rewrite (merge_now_run_raised _ _ _ _ _ _ _ Hrun). fold outfile. fold cmd.
    destruct (is_FileNotFoundError e); reflexivity.
Qed.

(** C3. For every clock reading of the years 1000 to 9999, the timestamp
    is the year in four digits, then month, day in two digits each, one
    underscore, then hour, minute, second in two digits each: fifteen
    characters, all digits but the underscore at index 8, and each group of
    digits read as a number is the field it stands for.  For
    2024-03-07 09:05:03 the file name is [20240307_090503.mp4].  A merge
    attempt that passes validation hands the process, as its last argument,
    [os.path.join] of the output directory and that file name. *)
Theorem output_name (self : App) (w : world) :
  valid_datetime (clock w) -> (1000 <= year (clock w))%Z ->
  let ts := timestamp w in
  ts = (four_digits (year (clock w)) ++ two_digits (month (clock w))
        ++ two_digits (day (clock w)) ++ "_" ++ two_digits (hour (clock w))
        ++ two_digits (minute (clock w)) ++ two_digits (second (clock w)))%string
  /\ String.length ts = 15
  /\ all_digits (Py.take 8 ts) = true
  /\ String.get 8 ts = Some "_"%char
  /\ all_digits (Py.drop 9 ts) = true
  /\ (number_of (substring 0 4 ts) = year (clock w)
      /\ number_of (substring 4 2 ts) = month (clock w)
      /\ number_of (substring 6 2 ts) = day (clock w)
      /\ number_of (substring 9 2 ts) = hour (clock w)
      /\ number_of (substring 11 2 ts) = minute (clock w)
      /\ number_of (substring 13 2 ts) = second (clock w))
  /\ (clock w = sample_clock -> (ts ++ ".mp4")%string = "20240307_090503.mp4")
  /\ (first_failing w (audio_of self) (video_of self) (outdir_of self) = None ->
      exists rest,
        (merge_now subprocess_run self w).2
        = update_idletasks
          :: subprocess_run_call
               (merge_cmd (which_ffmpeg w) (audio_of self) (video_of self)
                  (path_join (outdir_of self) (ts ++ ".mp4")))
          :: rest).
Proof.
  intros Hclock _ ts. subst ts. unfold timestamp at 1 2 3 4 5 6 7 8 9 10 11.
  rewrite (strftime_fields _ Hclock).
  split; [reflexivity|]. split; [reflexivity|].
  split.
  { unfold all_digits, four_digits, two_digits. cbn [String.append Py.take Py.all_chars].
    rewrite !is_digit_digit. reflexivity. }
  split; [reflexivity|].
  split.
  { unfold all_digits, four_digits, two_digits. cbn [String.append Py.drop Py.all_chars].
    rewrite !is_digit_digit. reflexivity. }
  split.
  { destruct Hclock as (Hy & Hm & Hd & HH & HM & HS).
    pose proof (number_of_four_digits (year (clock w))) as H4.
    pose proof number_of_two_digits as H2.
    unfold four_digits, two_digits in *. cbn [String.append substring].
    rewrite H4 by lia. rewrite !H2 by lia. repeat split. }
  split.
  { intros Hs. unfold timestamp. rewrite Hs. reflexivity. }
  intros Hc. rewrite (merge_now_accepts _ _ _ Hc).
  destruct (merge_now_run_log self w (audio_of self) (video_of self) (outdir_of self))
    as (rest & Hlog & _).
  exists rest. exact Hlog.
Qed.

(** C9. A merge attempt never changes the output-directory field.  When it
    succeeds the audio and video fields are set to the empty string; when
    it does not, they are left as they were. *)
Theorem selections_after_merge (self : App) (w : world) :
  let after := (merge_now subprocess_run self w).1.1 in
  let log := (merge_now subprocess_run self w).2 in
  outdir_var after = outdir_var self
  /\ if succeeded log
     then audio_var after = EmptyString /\ video_var after = EmptyString
     else audio_var after = audio_var self /\ video_var after = video_var self.
Proof.
  intros after log. subst after log.
  destruct (first_failing w (audio_of self) (video_of self) (outdir_of self)) as [c|] eqn:Hc.
  - rewrite (merge_now_rejects _ _ _ _ Hc). destruct c; repeat split.
  - rewrite (merge_now_accepts _ _ _ Hc).
    destruct (subprocess_run
                (merge_cmd (which_ffmpeg w) (audio_of self) (video_of self)
                   (path_join (outdir_of self) (timestamp w ++ ".mp4"))) w)
      as [[proc|e] w'] eqn:Hrun.
    + rewrite (merge_now_run_completed _ _ _ _ _ _ _ Hrun).
      destruct (_ && _); repeat split.
    + rewrite (merge_now_run_raised _ _ _ _ _ _ _ Hrun).
      destruct (is_FileNotFoundError e); repeat split.
Qed.

(** C10. Each of the three fields is used with the double quotes and spaces
    at its two ends removed: what is removed consists of such characters
    only, and what is left neither starts nor ends with one; a path free of
    them at its ends and put between double quotes is used as the path
    itself, so that an existing audio file given that way passes the first
    check.  The checks and the command line see the stripped values only:
    the boxes shown, the process started and the file system left are those
    of the form with its fields already stripped. *)
Theorem inputs_are_stripped (self : App) (w : world) :
  (forall s, exists l r,
      s = (l ++ Py.strip_chars quote_space s ++ r)%string
      /\ Py.all_chars is_quote_or_space l = true
      /\ Py.all_chars is_quote_or_space r = true
      /\ Py.starts_by is_quote_or_space (Py.strip_chars quote_space s) = false
      /\ Py.ends_by is_quote_or_space (Py.strip_chars quote_space s) = false)
  /\ (forall p,
        Py.starts_by is_quote_or_space p = false ->
        Py.ends_by is_quote_or_space p = false ->
        Py.strip_chars quote_space (quoted p) = p)
  /\ (forall p,
        audio_var self = quoted p ->
        Py.starts_by is_quote_or_space p = false ->
        Py.ends_by is_quote_or_space p = false ->
        Py.truthy p = true -> isfile w p = true ->
        holds w (audio_of self) (video_of self) (outdir_of self) AudioIsFile = true)
  /\ (merge_now subprocess_run self w).2
     = (merge_now subprocess_run (stripped_form self) w).2
  /\ (merge_now subprocess_run self w).1.2
     = (merge_now subprocess_run (stripped_form self) w).1.2
  /\ match first_failing w (audio_of self) (video_of self) (outdir_of self) with
     | Some c => (merge_now subprocess_run self w).2 = [validation_error c]
     | None =>
         exists rest,
           (merge_now subprocess_run self w).2
           = update_idletasks
             :: subprocess_run_call
                  (merge_cmd (which_ffmpeg w) (audio_of self) (video_of self)
                     (path_join (outdir_of self) (timestamp w ++ ".mp4")))
             :: rest
     end.
Proof.
  split.
  { intros s. destruct (strip_by_split is_quote_or_space s) as (l & r & Hs & Hl & Hr).
    exists l, r. repeat split; try assumption.
    - apply strip_by_starts.
    - apply strip_by_ends. }
  split.
  { intros p Hs He. apply (strip_by_wrapped is_quote_or_space); auto. }
  split.
  { intros p Hp Hs He Ht Hf. unfold audio_of, holds. rewrite Hp.
    pose proof (strip_by_wrapped is_quote_or_space Py.dquote p eq_refl Hs He) as Hw.
    unfold Py.strip_chars, quoted. unfold is_quote_or_space in Hw.
    rewrite Hw, Ht, Hf. reflexivity. }
  destruct (stripped_form_inputs self) as (Ha & Hv & Ho).
  destruct (first_failing w (audio_of self) (video_of self) (outdir_of self)) as [c|] eqn:Hc.
  - rewrite (merge_now_rejects _ self _ _ Hc).
    rewrite (merge_now_rejects _ (stripped_form self) w c) by (rewrite Ha, Hv, Ho; exact Hc).
    repeat split.
  - rewrite (merge_now_accepts _ self _ Hc).
    rewrite (merge_now_accepts _ (stripped_form self) w) by (rewrite Ha, Hv, Ho; exact Hc).
    rewrite Ha, Hv, Ho.
    destruct (merge_now_run_form self (stripped_form self) w
                (audio_of self) (video_of self) (outdir_of self)) as [Hlog Hw].
    split; [exact Hlog|]. split; [exact Hw|].
    destruct (merge_now_run_log self w (audio_of self) (video_of self) (outdir_of self))
      as (rest & Hrest & _).
    exists rest. exact Hrest.
Qed.

End Merge.

(** ** The settings store *)

Lemma write_file_read_back (w w' : world) (p data : string) :
  settings_file_usable w p = true ->
  write_file w p data = Ok w' ->
  isfile w' p = true /\ read_file w' p = Ok data.
Proof.
  unfold settings_file_usable, write_file, isfile, read_file.
  destruct (fs w !! p) as [[old r wr|n]|] eqn:Hp.
  - intros [-> ->]%andb_true_iff [= <-]. simpl. rewrite lookup_insert_eq. auto.
  - discriminate.
  - intros -> [= <-]. simpl. rewrite lookup_insert_eq. auto.
Qed.

Lemma write_file_usable (w : world) (p data : string) :
  settings_file_usable w p = true -> exists w', write_file w p data = Ok w'.
Proof.
  unfold settings_file_usable, write_file.
  destruct (fs w !! p) as [[old r wr|n]|].
  - intros [-> ->]%andb_true_iff. eauto.
  - discriminate.
  - intros ->. eauto.
Qed.

Section Settings.
Context {js : JsonLib}.

Lemma load_settings_total (self : App) (w : world) :
  exists v, load_settings self w = Ok v.
Proof.
  unfold load_settings, try_except.
  destruct (isfile w (config_path self)); [|eauto].
  destruct (read_file w (config_path self)) as [text|e]; simpl; [|eauto].
  destruct (json_load text); eauto.
Qed.

Lemma save_outdir_total (self : App) (w : world) (path : string) :
  exists w',
    save_outdir self w path
    = Ok (set_settings self (JDict (<["outdir" := JStr path]> (settings_dict self))), w')
    /\ match write_file w (config_path self)
               (json_dump (JDict (<["outdir" := JStr path]> (settings_dict self)))) with
       | Ok written => w' = written
       | Raise _ => w' = w
       end.
Proof.
  unfold save_outdir, try_except, settings_dict. simpl.
  destruct (write_file w (config_path self) _) as [written|e]; simpl; eauto.
Qed.


(** C8. [load_settings] never raises: it returns a value in every state of
    the file system, and that value is the empty dictionary when the
    settings file is not there, when it cannot be read, and when its
    contents are not accepted by [json.load].  [save_outdir] never raises
    either: a write that fails leaves the file system as it was and the
    call returns normally, so that its caller [pick_outdir] returns
    normally too, with the chosen directory in the form. *)
Theorem settings_fail_soft (self : App) (w : world) :
  (exists v, load_settings self w = Ok v)
  /\ (isfile w (config_path self) = false -> load_settings self w = Ok (JDict ∅))
  /\ (forall e, read_file w (config_path self) = Raise e ->
        load_settings self w = Ok (JDict ∅))
  /\ (forall text e, read_file w (config_path self) = Ok text ->
        json_load text = Raise e -> load_settings self w = Ok (JDict ∅))
  /\ (forall path, exists self' w',
        save_outdir self w path = Ok (self', w')
        /\ (forall e, write_file w (config_path self) (json_dump (settings self')) = Raise e ->
              w' = w))
  /\ (forall path, exists self' w',
        pick_outdir self w path = Ok (self', w')
        /\ (Py.truthy path = true -> outdir_var self' = path)).
Proof.
  split; [apply load_settings_total|].
  unfold load_settings, try_except. repeat split.
  - intros ->. reflexivity.
  - intros e He. destruct (isfile w (config_path self)); [|reflexivity].
    rewrite He. reflexivity.
  - intros text e Ht He. destruct (isfile w (config_path self)); [|reflexivity].
    rewrite Ht. simpl. rewrite He. reflexivity.
  - intros path. destruct (save_outdir_total self w path) as (w' & Hsave & Hw).
    eexists _, w'. split; [exact Hsave|].
    cbn [settings set_settings]. intros e He. rewrite He in Hw. exact Hw.
  - intros path. unfold pick_outdir. destruct (Py.truthy path).
    + destruct (save_outdir_total (set_outdir_var self path) w path) as (w' & Hsave & _).
      eexists _, w'. split; [exact Hsave|]. reflexivity.
    + eexists _, _. split; [reflexivity | discriminate].
Qed.

End Settings.

(** ** The properties on the sample surroundings *)

Example extension_samples :
  splitext (os:=posixpath) "/a/b.tar.GZ" = ("/a/b.tar", ".GZ")
  /\ splitext (os:=posixpath) "/a/b.c/.hidden" = ("/a/b.c/.hidden", "")
  /\ splitext (os:=posixpath) "..x.mp3" = ("..x", ".mp3")
  /\ splitext (os:=posixpath) "..." = ("...", "")
  /\ splitext (os:=posixpath) "a." = ("a", ".").
Proof. repeat split. Qed.

Example classify_samples :
  classify (os:=posixpath) "/m/Song.MP3" = Audio
  /\ classify (os:=posixpath) "/m/clip.Ts" = Video
  /\ classify (os:=posixpath) "/m/notes.txt" = Other
  /\ classify (os:=posixpath) "/m/.mp3" = Other
  /\ classify (os:=posixpath) "/m.mp3/track" = Other.
Proof. vm_compute. repeat split. Qed.

(** [classifier] on a path whose extension is written in capitals. *)
Lemma classifier_sample :
  is_sep (os:=posixpath) "." = false
  /\ has_extension (os:=posixpath) "/m/Song.MP3" "mp3"
  /\ classify (os:=posixpath) "/m/Song.MP3" = Audio.
Proof.
  assert (Hext : has_extension (os:=posixpath) "/m/Song.MP3" "mp3").
  { exists "MP3". split; [|reflexivity].
    exists "/m/", "Song". repeat split. right. reflexivity. }
  split; [reflexivity|]. split; [exact Hext|].
  destruct (classifier (os:=posixpath) "/m/Song.MP3" eq_refl) as (_ & _ & Haudio & _).
  apply Haudio. exists "mp3". split; [|exact Hext].
  unfold audio_extensions. rewrite !elem_of_cons. auto.
Defined.

Example which_ffmpeg_samples :
  which_ffmpeg (os:=posixpath) sample_world = "/opt/ff/ffmpeg"
  /\ which_ffmpeg (os:=posixpath)
       (set_fs sample_world {[ "/app/ffmpeg" := File "ELF" true true ]})
     = "/app/ffmpeg"
  /\ which_ffmpeg (os:=posixpath) (set_fs sample_world ∅) = "ffmpeg".
Proof. vm_compute. repeat split. Qed.

Example quoted_path_merges :
  audio_var sample_app = quoted "/music/a.mp3"
  /\ succeeded (merge_now (os:=posixpath) (program_writes "mp4") sample_app sample_world).2
     = true.
Proof. vm_compute. split; reflexivity. Qed.

Example no_output_is_a_process_error :
  (merge_now (os:=posixpath) (program_exits 0 "" "") sample_app sample_world).2
  = [update_idletasks;
     subprocess_run_call
       (merge_cmd "/opt/ff/ffmpeg" "/music/a.mp3" "/video/v.mp4" "/out/20240307_090503.mp4");
     process_error "Unknown error."].
Proof. vm_compute. reflexivity. Qed.

Example missing_audio_is_rejected :
  merge_now (os:=posixpath) (program_writes "mp4")
    (set_audio_var sample_app "/music/none.mp3") sample_world
  = (set_audio_var sample_app "/music/none.mp3", sample_world,
     [validation_error AudioIsFile]).
Proof. reflexivity. Qed.

(** [merge_outcome] on a program that writes its output: the attempt
    passes validation and ends with the completion box. *)
Lemma merge_outcome_sample :
  first_failing sample_world (audio_of sample_app) (video_of sample_app)
    (outdir_of sample_app) = None
  /\ (merge_now (os:=posixpath) (program_writes "mp4") sample_app sample_world).2
     = [update_idletasks;
        subprocess_run_call
          (merge_cmd "/opt/ff/ffmpeg" "/music/a.mp3" "/video/v.mp4"
             "/out/20240307_090503.mp4");
        success_box "/out/20240307_090503.mp4";
        audio_entry_focus_set].
Proof.
  split; [vm_compute; reflexivity|].
  pose proof (merge_outcome (os:=posixpath) (program_writes "mp4") sample_app sample_world
                ltac:(vm_compute; reflexivity)) as Hout.
  cbv zeta in Hout. cbn [program_writes] in Hout.
  destruct Hout as (_ & Hsucc & _).
  rewrite Hsucc by (vm_compute; reflexivity). vm_compute. reflexivity.
Defined.

(** C1 as the specification words it fails twice.  A process that exits
    with status 1, a single space on standard error and [out] on standard
    output is reported with the reason [out], where the specification has
    the captured standard error, the space.  A process whose start raises
    [PermissionError] is reported with the text of the exception under the
    general error title, not as a missing executable. *)
Lemma reason_is_not_raw_stderr :
  (merge_now (os:=posixpath) (program_exits 1 "out" " ") sample_app sample_world).2
  = [update_idletasks;
     subprocess_run_call
       (merge_cmd "/opt/ff/ffmpeg" "/music/a.mp3" "/video/v.mp4" "/out/20240307_090503.mp4");
     process_error "out"]
  /\ spec_reason {| returncode := 1; stdout := "out"; stderr := " " |} = " "
  /\ process_error "out"
     <> process_error (spec_reason {| returncode := 1; stdout := "out"; stderr := " " |})
  /\ (merge_now (os:=posixpath)
        (program_raises (Exn PermissionError "[Errno 13] Permission denied: 'ffmpeg'"))
        sample_app sample_world).2
     = [update_idletasks;
        subprocess_run_call
          (merge_cmd "/opt/ff/ffmpeg" "/music/a.mp3" "/video/v.mp4"
             "/out/20240307_090503.mp4");
        other_error "[Errno 13] Permission denied: 'ffmpeg'"]
  /\ other_error "[Errno 13] Permission denied: 'ffmpeg'" <> not_found.
Proof.
  split; [vm_compute; reflexivity|]. split; [reflexivity|].
  split; [vm_compute; discriminate|]. split; [vm_compute; reflexivity|].
  vm_compute. discriminate.
Qed.

(** [output_name] on the sample clock. *)
Lemma output_name_sample :
  valid_datetime (clock sample_world)
  /\ (1000 <= year (clock sample_world))%Z
  /\ (timestamp sample_world ++ ".mp4")%string = "20240307_090503.mp4".
Proof.
  assert (Hclock : valid_datetime (clock sample_world))
    by (unfold valid_datetime; simpl; lia).
  assert (Hyear : (1000 <= year (clock sample_world))%Z) by (simpl; lia).
  split; [exact Hclock|]. split; [exact Hyear|].
  pose proof (output_name (os:=posixpath) (program_writes "mp4") sample_app sample_world
                Hclock Hyear) as Hname.
  cbv zeta in Hname. destruct Hname as (_ & _ & _ & _ & _ & _ & Hsample & _).
  apply Hsample. reflexivity.
Defined.

(** [command_line] on the sample form. *)
Lemma command_line_sample :
  first_failing sample_world (audio_of sample_app) (video_of sample_app)
    (outdir_of sample_app) = None
  /\ exists rest,
       (merge_now (os:=posixpath) (program_writes "mp4") sample_app sample_world).2
       = update_idletasks
         :: subprocess_run_call
              ["/opt/ff/ffmpeg"; "-hide_banner"; "-loglevel"; "error"; "-y"; "-nostdin";
               "-i"; "/music/a.mp3"; "-i"; "/video/v.mp4";
               "-acodec"; "copy"; "-vcodec"; "copy"; "/out/20240307_090503.mp4"]
         :: rest.
Proof.
  split; [vm_compute; reflexivity|].
  destruct (command_line (os:=posixpath) (program_writes "mp4") sample_app sample_world
              ltac:(vm_compute; reflexivity)) as (rest & Hlog & _).
  exists rest. rewrite Hlog. vm_compute. reflexivity.
Defined.



(** * Further properties of [ffmerge_gui.py] *)

(** ** [which_ffmpeg] and [timestamp] *)

Section LocatorResult.
Context {os : OsPath}.

Lemma which_ffmpeg_loop_result (w : world) (entries : list string) :
  match which_ffmpeg_loop w entries with
  | Some found => isfile w found = true
  | None => Forall (fun q => isfile w (candidate_of q) = false) entries
  end.
Proof.
  induction entries as [|p entries IH]; simpl; [constructor|].
  fold (candidate_of p).
  destruct (isfile w (candidate_of p)) eqn:Hp; [exact Hp|].
  destruct (which_ffmpeg_loop w entries); [exact IH|]. constructor; assumption.
Qed.

(** X1. What [which_ffmpeg] returns is a regular file whenever one of the
    places it looks at holds one: it falls back to the bare name only when
    no entry of [PATH] has a candidate that is a regular file and the
    directory of the script has none either. *)
Theorem which_ffmpeg_finds_a_file (w : world) :
  isfile w (which_ffmpeg w) = true
  \/ (which_ffmpeg w = exe
      /\ Forall (fun q => isfile w (candidate_of q) = false)
           (Py.split pathsep (default EmptyString (environ w !! "PATH")))
      /\ isfile w (path_join (script_dir w) exe) = false).
Proof.
  unfold which_ffmpeg.
  pose proof (which_ffmpeg_loop_result w
                (Py.split pathsep (default EmptyString (environ w !! "PATH")))) as Hloop.
  destruct (which_ffmpeg_loop w _) as [found|]; [left; exact Hloop|].
  destruct (isfile w (path_join (script_dir w) exe)) eqn:Hlocal; [left; exact Hlocal|].
  right. auto.
Qed.

End LocatorResult.

(** The fields of a clock reading can be read back from its timestamp. *)
Lemma strftime_read_back (dt : datetime) :
  valid_datetime dt ->
  {| year := number_of (substring 0 4 (strftime_Ymd_HMS dt));
     month := number_of (substring 4 2 (strftime_Ymd_HMS dt));
     day := number_of (substring 6 2 (strftime_Ymd_HMS dt));
     hour := number_of (substring 9 2 (strftime_Ymd_HMS dt));
     minute := number_of (substring 11 2 (strftime_Ymd_HMS dt));
     second := number_of (substring 13 2 (strftime_Ymd_HMS dt)) |} = dt.
Proof.
  intros Hdt. rewrite (strftime_fields dt Hdt).
  destruct Hdt as (Hy & Hm & Hd & HH & HM & HS).
  pose proof (number_of_four_digits (year dt)) as H4.
  pose proof number_of_two_digits as H2.
  unfold four_digits, two_digits in *. cbn [String.append substring].
  rewrite H4 by lia. rewrite !H2 by lia. destruct dt; reflexivity.
Qed.

(** X2. Two clock readings get the same timestamp, hence the same output
    file name, only when they are the same to the second. *)
Theorem timestamp_injective (dt1 dt2 : datetime) :
  valid_datetime dt1 -> valid_datetime dt2 ->
  strftime_Ymd_HMS dt1 = strftime_Ymd_HMS dt2 -> dt1 = dt2.
Proof.
  intros H1 H2 Heq.
  rewrite <- (strftime_read_back dt1 H1), <- (strftime_read_back dt2 H2), Heq.
  reflexivity.
Qed.

Lemma timestamp_injective_sample :
  valid_datetime sample_clock
  /\ strftime_Ymd_HMS sample_clock = "20240307_090503"
  /\ forall dt, valid_datetime dt -> strftime_Ymd_HMS dt = "20240307_090503" ->
       dt = sample_clock.
Proof.
  assert (Hs : valid_datetime sample_clock) by (unfold valid_datetime; simpl; lia).
  split; [exact Hs|]. split; [reflexivity|].
  intros dt Hdt Heq. exact (timestamp_injective dt sample_clock Hdt Hs Heq).
Defined.

(** ** [merge_now]: the button, and a second attempt *)

Section MergeAgain.
Context {os : OsPath}.
Variable subprocess_run : list string -> world -> res CompletedProcess * world.

(** X3. The merge button is never left disabled: a call that starts the
    process ends with the button enabled, whatever the process does or
    raises, and a call that fails validation does not touch the button. *)
Theorem merge_btn_restored (self : App) (w : world) :
  merge_btn (merge_now subprocess_run self w).1.1
  = if launches (merge_now subprocess_run self w).2 then NORMAL else merge_btn self.
Proof.
  destruct (first_failing w (audio_of self) (video_of self) (outdir_of self)) as [c|] eqn:Hc.
  - rewrite (merge_now_rejects _ _ _ _ Hc). destruct c; reflexivity.
  - rewrite (merge_now_accepts _ _ _ Hc).
    destruct (subprocess_run
                (merge_cmd (which_ffmpeg w) (audio_of self) (video_of self)
                   (path_join (outdir_of self) (timestamp w ++ ".mp4"))) w)
      as [[proc|e] w'] eqn:Hrun.
    + rewrite (merge_now_run_completed _ _ _ _ _ _ _ _ Hrun).
      destruct (_ && _); reflexivity.
    + rewrite (merge_now_run_raised _ _ _ _ _ _ _ _ Hrun).
      destruct (is_FileNotFoundError e); reflexivity.
Qed.

(** X4. After a successful merge the form cannot be merged again as it
    stands: the next call, in any state of the surroundings and whatever
    the process would do, stops at the first check with the box asking for
    a valid audio file, and starts nothing. *)
Theorem second_merge_is_rejected (self : App) (w : world) :
  succeeded (merge_now subprocess_run self w).2 = true ->
  forall other_run w',
    merge_now other_run (merge_now subprocess_run self w).1.1 w'
    = ((merge_now subprocess_run self w).1.1, w', [validation_error AudioIsFile]).
Proof.
  intros Hs other_run w'. apply merge_now_rejects.
  assert (Ha : audio_var (merge_now subprocess_run self w).1.1 = EmptyString).
  { revert Hs.
    destruct (first_failing w (audio_of self) (video_of self) (outdir_of self))
      as [c|] eqn:Hc.
    - rewrite (merge_now_rejects _ _ _ _ Hc). destruct c; discriminate.
    - rewrite (merge_now_accepts _ _ _ Hc).
      destruct (subprocess_run
                  (merge_cmd (which_ffmpeg w) (audio_of self) (video_of self)
                     (path_join (outdir_of self) (timestamp w ++ ".mp4"))) w)
        as [[proc|e] w''] eqn:Hrun.
      + rewrite (merge_now_run_completed _ _ _ _ _ _ _ _ Hrun).
        destruct (_ && _); [reflexivity | discriminate].
      + rewrite (merge_now_run_raised _ _ _ _ _ _ _ _ Hrun).
        destruct (is_FileNotFoundError e); discriminate. }
  unfold first_failing, checks_in_order, holds, audio_of. rewrite Ha. reflexivity.
Qed.

End MergeAgain.

Lemma second_merge_is_rejected_sample :
  succeeded (merge_now (os:=posixpath) (program_writes "mp4") sample_app sample_world).2 = true
  /\ (merge_now (os:=posixpath) (program_writes "mp4")
        (merge_now (os:=posixpath) (program_writes "mp4") sample_app sample_world).1.1
        sample_world).2
     = [validation_error AudioIsFile].
Proof.
  split; [vm_compute; reflexivity|].
  rewrite (second_merge_is_rejected (os:=posixpath) (program_writes "mp4")
             sample_app sample_world ltac:(vm_compute; reflexivity)
             (program_writes "mp4") sample_world).
  reflexivity.
Defined.

(** ** The settings in memory and on disk *)

Lemma write_file_stays_usable (w w' : world) (p data : string) :
  settings_file_usable w p = true ->
  write_file w p data = Ok w' ->
  settings_file_usable w' p = true /\ script_dir w' = script_dir w.
Proof.
  unfold settings_file_usable, write_file.
  destruct (fs w !! p) as [[old r wr|n]|] eqn:Hp.
  - intros [-> ->]%andb_true_iff [= <-]. simpl. rewrite lookup_insert_eq. auto.
  - discriminate.
  - intros -> [= <-]. simpl. rewrite lookup_insert_eq. auto.
Qed.

Section SettingsMore.
Context {js : JsonLib}.

(** X5. Whether or not the file can be written, [save_outdir] returns
    normally and leaves in memory a dictionary whose [outdir] is the new
    path and whose other keys are those of the settings it started from;
    settings that were not a dictionary are replaced by a dictionary with
    that one key.  The fields of the form and the path of the settings file
    are not touched. *)
Theorem save_outdir_in_memory (self : App) (w : world) (path : string) :
  exists self' w' d,
    save_outdir self w path = Ok (self', w')
    /\ settings self' = JDict d
    /\ d !! "outdir" = Some (JStr path)
    /\ (forall k, k <> "outdir" -> d !! k = settings_dict self !! k)
    /\ ((forall old, settings self <> JDict old) -> d = {[ "outdir" := JStr path ]})
    /\ audio_var self' = audio_var self /\ video_var self' = video_var self
    /\ outdir_var self' = outdir_var self /\ config_path self' = config_path self.
Proof.
  destruct (save_outdir_total self w path) as (w' & Hsave & _).
  eexists _, w', _. split; [exact Hsave|]. split; [reflexivity|].
  split; [apply lookup_insert_eq|]. split.
  { intros k Hk. apply lookup_insert_ne. congruence. }
  split; [|repeat split].
  intros Hnot. unfold settings_dict.
  destruct (settings self) as [| | | | | |old]; try reflexivity.
  exfalso. exact (Hnot old eq_refl).
Qed.

(** X6. Saving twice keeps the last path: when the settings file can be
    replaced and read back and the JSON library reads back what the second
    call writes, [save_outdir x], then [save_outdir y], then
    [load_settings] give a dictionary whose [outdir] is [y] and whose other
    keys are those of the settings before the two calls. *)
Theorem save_twice_last_wins (self : App) (w : world) (x y : string) :
  settings_file_usable w (config_path self) = true ->
  json_load (json_dump (JDict (<["outdir" := JStr y]> (settings_dict self))))
  = Ok (JDict (<["outdir" := JStr y]> (settings_dict self))) ->
  exists self1 w1 self2 w2 d,
    save_outdir self w x = Ok (self1, w1)
    /\ save_outdir self1 w1 y = Ok (self2, w2)
    /\ load_settings self2 w2 = Ok (JDict d)
    /\ d !! "outdir" = Some (JStr y)
    /\ forall k, k <> "outdir" -> d !! k = settings_dict self !! k.
Proof.
  intros Husable Hjson.
  destruct (save_outdir_total self w x) as (w1 & Hsave1 & Hw1).
  destruct (write_file_usable w (config_path self)
              (json_dump (JDict (<["outdir" := JStr x]> (settings_dict self)))) Husable)
    as (written1 & Hwrite1).
  rewrite Hwrite1 in Hw1. subst w1.
  destruct (write_file_stays_usable _ _ _ _ Husable Hwrite1) as [Husable1 _].
  set (self1 := set_settings self (JDict (<["outdir" := JStr x]> (settings_dict self)))) in *.
  destruct (save_outdir_total self1 written1 y) as (w2 & Hsave2 & Hw2).
  assert (Hdict : <["outdir" := JStr y]> (settings_dict self1)
                  = <["outdir" := JStr y]> (settings_dict self)).
  { unfold self1, settings_dict at 1. cbn [settings set_settings].
    apply insert_insert_eq. }
  rewrite Hdict in Hsave2, Hw2. change (config_path self1) with (config_path self) in Hw2.
  destruct (write_file_usable written1 (config_path self)
              (json_dump (JDict (<["outdir" := JStr y]> (settings_dict self)))) Husable1)
    as (written2 & Hwrite2).
  rewrite Hwrite2 in Hw2. subst w2.
  destruct (write_file_read_back _ _ _ _ Husable1 Hwrite2) as [Hfile Hread].
  eexists self1, written1, _, written2, _.
  split; [exact Hsave1|]. split; [exact Hsave2|]. split.
  - unfold load_settings, try_except. subst self1. cbn [config_path set_settings].
    rewrite Hfile, Hread. simpl. rewrite Hjson. reflexivity.
  - split; [apply lookup_insert_eq|].
    intros k Hk. apply lookup_insert_ne. congruence.
Qed.

End SettingsMore.

Lemma save_twice_last_wins_sample :
  settings_file_usable sample_world (config_path sample_app) = true
  /\ exists self1 w1 self2 w2 d,
       save_outdir (js:=flat_json) sample_app sample_world "/tmp/x" = Ok (self1, w1)
       /\ save_outdir (js:=flat_json) self1 w1 "/tmp/y" = Ok (self2, w2)
       /\ load_settings (js:=flat_json) self2 w2 = Ok (JDict d)
       /\ d !! "outdir" = Some (JStr "/tmp/y").
Proof.
  split; [vm_compute; reflexivity|].
  destruct (save_twice_last_wins (js:=flat_json) sample_app sample_world "/tmp/x" "/tmp/y"
              ltac:(vm_compute; reflexivity) ltac:(vm_compute; reflexivity))
    as (self1 & w1 & self2 & w2 & d & H1 & H2 & H3 & H4 & _).
  exists self1, w1, self2, w2, d. auto.
Defined.

(** ** Starting the application *)

Section Start.
Context {os : OsPath} {js : JsonLib}.
Variable DnD_AVAILABLE : bool.
Variable tk_text : json -> string.

Lemma App_init_eq (w : world) (v : json) :
  load_settings
    {| audio_var := EmptyString; video_var := EmptyString; outdir_var := EmptyString;
       status_var := EmptyString; merge_btn := NORMAL; settings := JNull;
       config_path := path_join (script_dir w) config_name |} w = Ok v ->
  exists app,
    App_init DnD_AVAILABLE tk_text w = Ok app
    /\ settings app = v
    /\ config_path app = path_join (script_dir w) config_name
    /\ audio_var app = EmptyString /\ video_var app = EmptyString
    /\ merge_btn app = NORMAL
    /\ outdir_var app
       = match v with
         | JDict d =>
             match default (JStr EmptyString) (d !! "outdir") with
             | JStr s => s
             | other => if json_truthy other then tk_text other else EmptyString
             end
         | _ => EmptyString
         end.
Proof.
  intros Hload. unfold App_init. fold config_name. rewrite Hload.
  eexists. split; [reflexivity|]. repeat split.
Qed.

(** X7. The application always starts: [App.__init__] does not raise
    whatever the settings file holds, the audio and video fields start
    empty and the merge button enabled.  The output directory starts empty
    when there is no settings file, when what was loaded is not a
    dictionary, and when the dictionary has no [outdir] key or holds an
    empty string, [null], [false], zero or an empty container there. *)
Theorem App_init_defaults (w : world) :
  exists app,
    App_init DnD_AVAILABLE tk_text w = Ok app
    /\ config_path app = path_join (script_dir w) config_name
    /\ audio_var app = EmptyString /\ video_var app = EmptyString
    /\ merge_btn app = NORMAL
    /\ (isfile w (path_join (script_dir w) config_name) = false ->
        settings app = JDict ∅ /\ outdir_var app = EmptyString)
    /\ ((forall d, settings app <> JDict d) -> outdir_var app = EmptyString)
    /\ (forall d, settings app = JDict d -> d !! "outdir" = None ->
          outdir_var app = EmptyString)
    /\ (forall d v, settings app = JDict d -> d !! "outdir" = Some v ->
          json_truthy v = false -> outdir_var app = EmptyString).
Proof.
  destruct (load_settings_total
              {| audio_var := EmptyString; video_var := EmptyString;
                 outdir_var := EmptyString; status_var := EmptyString;
                 merge_btn := NORMAL; settings := JNull;
                 config_path := path_join (script_dir w) config_name |} w) as [v Hv].
  destruct (App_init_eq w v Hv) as (app & Hinit & Hset & Hcfg & Ha & Hvid & Hbtn & Hout).
  exists app. split; [exact Hinit|]. split; [exact Hcfg|].
  split; [exact Ha|]. split; [exact Hvid|]. split; [exact Hbtn|].
  rewrite Hout, Hset. clear Hout Hset Hinit.
  split; [|split; [|split]].
  - intros Hmissing. unfold load_settings, try_except in Hv. cbn [config_path] in Hv.
    rewrite Hmissing in Hv. injection Hv as <-. split; reflexivity.
  - intros Hnot. destruct v; try reflexivity. exfalso. exact (Hnot d eq_refl).
  - intros d -> Hnone. rewrite Hnone. reflexivity.
  - intros d u -> Hsome Hfalse. rewrite Hsome. cbv [default from_option id].
    destruct u as [|b|n|r|t|l|d']; try (rewrite Hfalse; reflexivity).
    destruct t; [reflexivity | discriminate].
Qed.

(** X8. The output directory survives a restart: when the settings file
    lies where [App.__init__] looks for it, can be replaced and read back,
    and the JSON library reads back what it wrote, [save_outdir x] followed
    by a new [App.__init__] gives a form whose output directory is [x], with
    the saved dictionary as its settings. *)
Theorem restart_restores_outdir (self : App) (w : world) (x : string) :
  config_path self = path_join (script_dir w) config_name ->
  settings_file_usable w (config_path self) = true ->
  json_load (json_dump (JDict (<["outdir" := JStr x]> (settings_dict self))))
  = Ok (JDict (<["outdir" := JStr x]> (settings_dict self))) ->
  exists self' w' app,
    save_outdir self w x = Ok (self', w')
    /\ App_init DnD_AVAILABLE tk_text w' = Ok app
    /\ outdir_var app = x
    /\ settings app = settings self'
    /\ config_path app = config_path self.
Proof.
  intros Hcfg Husable Hjson.
  destruct (save_outdir_total self w x) as (w' & Hsave & Hw).
  destruct (write_file_usable w (config_path self)
              (json_dump (JDict (<["outdir" := JStr x]> (settings_dict self)))) Husable)
    as (written & Hwrite).
  rewrite Hwrite in Hw. subst w'.
  destruct (write_file_read_back _ _ _ _ Husable Hwrite) as [Hfile Hread].
  destruct (write_file_stays_usable _ _ _ _ Husable Hwrite) as [_ Hdir].
  assert (Hload : load_settings
            {| audio_var := EmptyString; video_var := EmptyString;
               outdir_var := EmptyString; status_var := EmptyString;
               merge_btn := NORMAL; settings := JNull;
               config_path := path_join (script_dir written) config_name |} written
          = Ok (JDict (<["outdir" := JStr x]> (settings_dict self)))).
  { unfold load_settings, try_except. cbn [config_path].
    rewrite Hdir, <- Hcfg, Hfile, Hread. simpl. rewrite Hjson. reflexivity. }
  destruct (App_init_eq written _ Hload)
    as (app & Hinit & Hset & Hpath & _ & _ & _ & Hout).
  eexists _, written, app. split; [exact Hsave|]. split; [exact Hinit|].
  split; [|split].
  - rewrite Hout, lookup_insert_eq. reflexivity.
  - rewrite Hset. reflexivity.
  - rewrite Hpath, Hdir, Hcfg. reflexivity.
Qed.

End Start.

Lemma restart_restores_outdir_sample :
  config_path sample_app = path_join (OsPath:=posixpath) (script_dir sample_world) config_name
  /\ settings_file_usable sample_world (config_path sample_app) = true
  /\ exists self' w' app,
       save_outdir (js:=flat_json) sample_app sample_world "/tmp/x" = Ok (self', w')
       /\ App_init (os:=posixpath) (js:=flat_json) false (fun _ => EmptyString) w' = Ok app
       /\ outdir_var app = "/tmp/x".
Proof.
  split; [reflexivity|]. split; [vm_compute; reflexivity|].
  destruct (restart_restores_outdir (os:=posixpath) (js:=flat_json) false
              (fun _ => EmptyString) sample_app sample_world "/tmp/x"
              eq_refl ltac:(vm_compute; reflexivity) ltac:(vm_compute; reflexivity))
    as (self' & w' & app & H1 & H2 & H3 & _).
  exists self', w', app. auto.
Defined.

(** ** [open_outdir] *)

Section OpenOutdir.
Context {os : OsPath}.
Variable sys_platform : string.
Variable os_startfile : string -> res unit.
Variable subprocess_Popen : list string -> res unit.

(** X9. [open_outdir] starts the file browser of the desktop exactly when
    the output-directory field, without the quotes and spaces at its ends,
    is not empty and names an existing directory.  An empty field gives one
    warning box and nothing else, a path that is no directory one error box
    and nothing else.  Otherwise the first act is the call of the platform
    with the stripped path: [os.startfile] where [os.name] is [nt], else
    [open] through [subprocess.Popen] where [sys.platform] is [darwin],
    else [xdg-open] through [subprocess.Popen]; nothing follows when that
    call returns, and when it raises one error box with the text of the
    exception follows, and [open_outdir] returns normally. *)
Theorem open_outdir_guard (self : App) (w : world) :
  let path := Py.strip_chars quote_space (outdir_var self) in
  let log := open_outdir sys_platform os_startfile subprocess_Popen self w in
  existsb is_browser_call log = Py.truthy path && isdir w path
  /\ (Py.truthy path = false -> log = [showwarning "提示" "尚未选择输出目录。"])
  /\ (Py.truthy path = true -> isdir w path = false ->
      log = [form_event (showerror "错误" "输出目录不存在或不可访问。")])
  /\ (Py.truthy path = true -> isdir w path = true ->
      (os_name = "nt" ->
       log = os_startfile_call path :: browser_error (os_startfile path))
      /\ (os_name <> "nt" -> sys_platform = "darwin" ->
          log = subprocess_Popen_call ["open"; path]
                :: browser_error (subprocess_Popen ["open"; path]))
      /\ (os_name <> "nt" -> sys_platform <> "darwin" ->
          log = subprocess_Popen_call ["xdg-open"; path]
                :: browser_error (subprocess_Popen ["xdg-open"; path]))).
Proof.
  intros path log. subst log. unfold open_outdir. fold path.
  destruct (Py.truthy path); cbn [negb andb].
  2:{ repeat split; try discriminate. }
  destruct (isdir w path); cbn [negb].
  2:{ repeat split; try discriminate. }
  destruct (String.eqb_spec os_name "nt") as [Hnt|Hnt];
    [|destruct (String.eqb_spec sys_platform "darwin") as [Hmac|Hmac]].
  - destruct (os_startfile path) as [[]|e]; repeat split; try discriminate;
      intros; try reflexivity; contradiction.
  - destruct (subprocess_Popen ["open"; path]) as [[]|e]; repeat split; try discriminate;
      intros; try reflexivity; contradiction.
  - destruct (subprocess_Popen ["xdg-open"; path]) as [[]|e]; repeat split;
      try discriminate; intros; try reflexivity; contradiction.
Qed.

End OpenOutdir.

(** ** Dropping files on the window *)

Section Drops.
Context {os : OsPath} {js : JsonLib}.

Lemma is_audio_empty : is_audio EmptyString = false.
Proof.
  unfold is_audio, splitext. cbn [Py.rfind].
  replace (match altsep with Some _ => Z.max (-1) (-1) | None => (-1)%Z end) with (-1)%Z
    by (destruct altsep; reflexivity).
  cbn. apply bool_decide_eq_false. rewrite AUDIO_EXTS_spec. vm_compute fmap.
  rewrite !elem_of_cons, elem_of_nil. intuition discriminate.
Qed.

Lemma is_video_empty : is_video EmptyString = false.
Proof.
  unfold is_video, splitext. cbn [Py.rfind].
  replace (match altsep with Some _ => Z.max (-1) (-1) | None => (-1)%Z end) with (-1)%Z
    by (destruct altsep; reflexivity).
  cbn. apply bool_decide_eq_false. rewrite VIDEO_EXTS_spec. vm_compute fmap.
  rewrite !elem_of_cons, elem_of_nil. intuition discriminate.
Qed.

(** X10. [on_drop_dir] takes the first dropped item that is an existing
    directory: it becomes the output directory of the form and of the
    settings, and the audio and video fields stay as they were.  When no
    item is a directory the call changes nothing and writes nothing. *)
Theorem on_drop_dir_first_directory (self : App) (w : world) (files : list string) :
  match find (isdir w) files with
  | Some d =>
      exists self' w' dict,
        on_drop_dir_files self w files = Ok (self', w')
        /\ outdir_var self' = d /\ isdir w d = true
        /\ settings self' = JDict dict /\ dict !! "outdir" = Some (JStr d)
        /\ audio_var self' = audio_var self /\ video_var self' = video_var self
  | None => on_drop_dir_files self w files = Ok (self, w)
  end.
Proof.
  induction files as [|f files IH]; cbn [find on_drop_dir_files]; [reflexivity|].
  destruct (isdir w f) eqn:Hf; [|exact IH].
  destruct (save_outdir_total (set_outdir_var self f) w f) as (w' & Hsave & _).
  eexists _, w', _. split; [exact Hsave|].
  repeat split; try assumption. apply lookup_insert_eq.
Qed.

Lemma kept_or_dropped_cons (before after f : string) (files : list string) :
  kept_or_dropped before after files -> kept_or_dropped before after (f :: files).
Proof.
  intros [->|[Hb Hin]]; [left; reflexivity|].
  right. split; [exact Hb | apply elem_of_cons; auto].
Qed.

Lemma kept_or_dropped_set (before after f : string) (files : list string) :
  Py.truthy before = false ->
  kept_or_dropped f after files -> kept_or_dropped before after (f :: files).
Proof.
  intros Hb [->|[_ Hin]]; right; (split; [exact Hb|]); apply elem_of_cons; auto.
Qed.

Lemma on_drop_any_loop_fields (self : App) (w : world) (files : list string) :
  exists self' w',
    on_drop_any_loop self w files = Ok (self', w')
    /\ kept_or_dropped (audio_var self) (audio_var self') files
    /\ kept_or_dropped (video_var self) (video_var self') files
    /\ kept_or_dropped (outdir_var self) (outdir_var self') files.
Proof.
  revert self w. induction files as [|f files IH]; intros self w; cbn [on_drop_any_loop].
  { exists self, w. repeat split; left; reflexivity. }
  destruct (isdir w f).
  - destruct (Py.truthy (outdir_var self)) eqn:Ho; cbn [negb].
    + destruct (IH self w) as (self' & w' & Hl & Ha & Hv & Hd).
      exists self', w'. split; [exact Hl|].
      repeat split; apply kept_or_dropped_cons; assumption.
    + destruct (save_outdir_total (set_outdir_var self f) w f) as (w1 & Hsave & _).
      rewrite Hsave. cbn [mbind res_bind].
      destruct (IH (set_settings (set_outdir_var self f)
                      (JDict (<["outdir" := JStr f]> (settings_dict (set_outdir_var self f)))))
                  w1) as (self' & w' & Hl & Ha & Hv & Hd).
      exists self', w'. split; [exact Hl|]. cbn [audio_var video_var outdir_var
        set_settings set_outdir_var] in Ha, Hv, Hd.
      repeat split; [apply kept_or_dropped_cons, Ha | apply kept_or_dropped_cons, Hv |].
      apply kept_or_dropped_set; assumption.
  - destruct (is_audio f && negb (Py.truthy (audio_var self))) eqn:Ea.
    { apply andb_true_iff in Ea as [_ Ea]. apply negb_true_iff in Ea.
      destruct (IH (set_audio_var self f) w) as (self' & w' & Hl & Ha & Hv & Hd).
      exists self', w'. split; [exact Hl|].
      cbn [audio_var video_var outdir_var set_audio_var] in Ha, Hv, Hd.
      repeat split; [| apply kept_or_dropped_cons, Hv | apply kept_or_dropped_cons, Hd].
      apply kept_or_dropped_set; assumption. }
    destruct (is_video f && negb (Py.truthy (video_var self))) eqn:Ev.
    { apply andb_true_iff in Ev as [_ Ev]. apply negb_true_iff in Ev.
      destruct (IH (set_video_var self f) w) as (self' & w' & Hl & Ha & Hv & Hd).
      exists self', w'. split; [exact Hl|].
      cbn [audio_var video_var outdir_var set_video_var] in Ha, Hv, Hd.
      repeat split; [apply kept_or_dropped_cons, Ha | | apply kept_or_dropped_cons, Hd].
      apply kept_or_dropped_set; assumption. }
    destruct (IH self w) as (self' & w' & Hl & Ha & Hv & Hd).
    exists self', w'. split; [exact Hl|].
    repeat split; apply kept_or_dropped_cons; assumption.
Qed.

(** X11. Dropping files on the window never replaces what the form already
    holds and never raises: a field that was filled before [on_drop_any]
    is the same after it, and a field that was empty is afterwards still
    empty or one of the dropped items. *)
Theorem on_drop_any_keeps_filled_fields (self : App) (w : world) (files : list string) :
  exists self' w',
    on_drop_any_files self w files = Ok (self', w')
    /\ (Py.truthy (audio_var self) = true -> audio_var self' = audio_var self)
    /\ (Py.truthy (video_var self) = true -> video_var self' = video_var self)
    /\ (Py.truthy (outdir_var self) = true -> outdir_var self' = outdir_var self)
    /\ (audio_var self' = audio_var self \/ audio_var self' ∈ files)
    /\ (video_var self' = video_var self \/ video_var self' ∈ files)
    /\ (outdir_var self' = outdir_var self \/ outdir_var self' ∈ files).
Proof.
  assert (Hfilled : forall before after l,
             kept_or_dropped before after l ->
             (Py.truthy before = true -> after = before) /\ (after = before \/ after ∈ l)).
  { intros before after l [->|[Hb Hin]]; split; auto. congruence. }
  unfold on_drop_any_files. destruct files as [|first rest].
  { exists self, w. repeat split; auto. }
  destruct (on_drop_any_loop_fields self w (first :: rest))
    as (self1 & w1 & Hl & Ha & Hv & Hd).
  rewrite Hl. cbn [mbind res_bind].
  eexists _, w1. split; [reflexivity|].
  assert (Ha' : kept_or_dropped (audio_var self)
                  (audio_var (if negb (Py.truthy (audio_var self1))
                              then set_audio_var self1 first else self1)) (first :: rest)).
  { destruct (Py.truthy (audio_var self1)) eqn:E; cbn [negb]; [exact Ha|].
    cbn [audio_var set_audio_var].
    destruct Ha as [Ha|[Hb _]]; [|right; split; [exact Hb | apply elem_of_cons; auto]].
    right. split; [congruence | apply elem_of_cons; auto]. }
  set (self2 := if negb (Py.truthy (audio_var self1)) then set_audio_var self1 first else self1)
    in *.
  assert (Hv2 : video_var self2 = video_var self1)
    by (unfold self2; destruct (negb _); reflexivity).
  assert (Hd2 : outdir_var self2 = outdir_var self1)
    by (unfold self2; destruct (negb _); reflexivity).
  destruct rest as [|second rest].
  - rewrite <- Hv2 in Hv. rewrite <- Hd2 in Hd.
    destruct (Hfilled _ _ _ Ha'), (Hfilled _ _ _ Hv), (Hfilled _ _ _ Hd). repeat split; auto.
  - assert (Hv' : kept_or_dropped (video_var self)
                    (video_var (if negb (Py.truthy (video_var self2))
                                then set_video_var self2 second else self2))
                    (first :: second :: rest)).
    { rewrite Hv2. destruct (Py.truthy (video_var self1)) eqn:E; cbn [negb].
      - rewrite Hv2. exact Hv.
      - cbn [video_var set_video_var]. right.
        split; [|apply elem_of_cons; right; apply elem_of_cons; auto].
        destruct Hv as [Hv|[Hb _]]; congruence. }
    assert (Ha2 : audio_var (if negb (Py.truthy (video_var self2))
                             then set_video_var self2 second else self2) = audio_var self2)
      by (destruct (negb (Py.truthy (video_var self2))); reflexivity).
    assert (Hd3 : outdir_var (if negb (Py.truthy (video_var self2))
                              then set_video_var self2 second else self2) = outdir_var self1)
      by (destruct (negb (Py.truthy (video_var self2))); exact Hd2).
    rewrite Ha2, Hd3.
    destruct (Hfilled _ _ _ Ha'), (Hfilled _ _ _ Hv'), (Hfilled _ _ _ Hd). repeat split; auto.
Qed.

(** X12. One audio file and one video file dropped together on a form
    whose audio and video fields are empty fill those two fields by their
    extensions, in whichever order they come, and write nothing. *)
Theorem on_drop_any_pair (self : App) (w : world) (a v : string) :
  audio_var self = EmptyString -> video_var self = EmptyString ->
  isdir w a = false -> isdir w v = false ->
  is_audio a = true -> is_video v = true ->
  on_drop_any_files self w [a; v] = Ok (set_video_var (set_audio_var self a) v, w)
  /\ on_drop_any_files self w [v; a] = Ok (set_audio_var (set_video_var self v) a, w).
Proof.
  intros Ha Hv Hda Hdv Hia Hiv.
  assert (Hta : Py.truthy a = true).
  { destruct a; [|reflexivity]. rewrite is_audio_empty in Hia. discriminate. }
  assert (Htv : Py.truthy v = true).
  { destruct v; [|reflexivity]. rewrite is_video_empty in Hiv. discriminate. }
  assert (Hav : is_audio v = false).
  { destruct (is_audio v) eqn:E; [|reflexivity].
    exfalso. apply (not_audio_and_video v). auto. }
  unfold on_drop_any_files. split;
    repeat (progress
              (cbn [on_drop_any_loop Py.truthy negb andb mbind res_bind
                    audio_var video_var set_video_var set_audio_var];
               rewrite ?Hda, ?Hdv, ?Hia, ?Hiv, ?Hav, ?Ha, ?Hv, ?Hta, ?Htv));
    reflexivity.
Qed.

(** X13. One item dropped on an empty form always lands in the audio
    field, whatever it is: a video file fills the audio and the video
    field, a directory fills the audio field and the output directory, and
    anything else fills the audio field alone. *)
Theorem on_drop_any_single (self : App) (w : world) (f : string) :
  audio_var self = EmptyString -> video_var self = EmptyString ->
  outdir_var self = EmptyString ->
  exists self' w',
    on_drop_any_files self w [f] = Ok (self', w')
    /\ audio_var self' = f
    /\ video_var self'
       = (if negb (isdir w f) && negb (is_audio f) && is_video f then f else EmptyString)
    /\ outdir_var self' = (if isdir w f then f else EmptyString).
Proof.
  intros Ha Hv Ho. unfold on_drop_any_files. cbn [on_drop_any_loop].
  destruct (isdir w f); cbn [negb andb].
  - rewrite Ho. cbn [Py.truthy negb].
    destruct (save_outdir_total (set_outdir_var self f) w f) as (w1 & Hsave & _).
    rewrite Hsave. cbn [mbind res_bind audio_var set_settings set_outdir_var].
    rewrite Ha. cbn [Py.truthy negb]. eexists _, w1. split; [reflexivity|].
    cbn [audio_var video_var outdir_var set_audio_var set_settings set_outdir_var].
    auto.
  - rewrite Ha. cbn [Py.truthy negb]. rewrite andb_true_r.
    destruct (is_audio f).
    + cbn [mbind res_bind audio_var set_audio_var].
      eexists _, w. split; [reflexivity|].
      destruct (negb (Py.truthy f));
        cbn [audio_var video_var outdir_var set_audio_var]; auto.
    + rewrite Hv. cbn [Py.truthy negb]. rewrite andb_true_r.
      destruct (is_video f).
      * cbn [mbind res_bind audio_var set_video_var]. rewrite Ha. cbn [Py.truthy negb].
        eexists _, w. split; [reflexivity|].
        cbn [audio_var video_var outdir_var set_audio_var set_video_var]. auto.
      * cbn [mbind res_bind]. rewrite Ha. cbn [Py.truthy negb].
        eexists _, w. split; [reflexivity|].
        cbn [audio_var video_var outdir_var set_audio_var]. auto.
Qed.

End Drops.

Lemma on_drop_any_pair_sample :
  on_drop_any_files (os:=posixpath) (js:=flat_json) blank_app sample_world
    ["/music/a.mp3"; "/video/v.mp4"]
  = Ok (set_video_var (set_audio_var blank_app "/music/a.mp3") "/video/v.mp4", sample_world)
  /\ on_drop_any_files (os:=posixpath) (js:=flat_json) blank_app sample_world
       ["/video/v.mp4"; "/music/a.mp3"]
     = Ok (set_audio_var (set_video_var blank_app "/video/v.mp4") "/music/a.mp3", sample_world).
Proof.
  exact (on_drop_any_pair (os:=posixpath) (js:=flat_json) blank_app sample_world
           "/music/a.mp3" "/video/v.mp4" eq_refl eq_refl eq_refl eq_refl eq_refl eq_refl).
Defined.

Lemma on_drop_any_single_sample :
  exists self' w',
    on_drop_any_files (os:=posixpath) (js:=flat_json) blank_app sample_world ["/video/v.mp4"]
    = Ok (self', w')
    /\ audio_var self' = "/video/v.mp4" /\ video_var self' = "/video/v.mp4"
    /\ outdir_var self' = EmptyString.
Proof.
  exact (on_drop_any_single (os:=posixpath) (js:=flat_json) blank_app sample_world
           "/video/v.mp4" eq_refl eq_refl eq_refl).
Defined.

(** ** [clean_quoted_win_path] *)

Lemma chop_last_snoc (s : string) (c : ascii) : chop_last (s ++ String c EmptyString) = s.
Proof.
  induction s as [|d s IH]; [reflexivity|].
  cbn [String.append chop_last]. rewrite IH.
  destruct s; reflexivity.
Qed.

Lemma ends_by_snoc (f : ascii -> bool) (s : string) (c : ascii) :
  Py.ends_by f (s ++ String c EmptyString) = f c.
Proof.
  induction s as [|d s IH]; [reflexivity|].
  cbn [String.append Py.ends_by]. rewrite IH.
  destruct s; reflexivity.
Qed.

Lemma inner_slice_wrap (a b : ascii) (s : string) : inner_slice (wrap a b s) = s.
Proof. apply chop_last_snoc. Qed.

Lemma wrapped_in_wrap (a b a' b' : ascii) (s : string) :
  wrapped_in a b (wrap a' b' s) = Ascii.eqb a' a && Ascii.eqb b' b.
Proof.
  unfold wrapped_in, wrap. cbn [Py.starts_by].
  change (String a' (s ++ String b' EmptyString))%string
    with ((String a' s) ++ String b' EmptyString)%string.
  rewrite ends_by_snoc. reflexivity.
Qed.

Lemma strip_wrap (a b : ascii) (s : string) :
  Py.isspace a = false -> Py.isspace b = false -> Py.strip (wrap a b s) = wrap a b s.
Proof.
  intros Ha Hb. unfold Py.strip, Py.strip_by, wrap.
  rewrite lstrip_by_id by exact Ha.
  apply rstrip_by_id.
  change (String a (s ++ String b EmptyString))%string
    with ((String a s) ++ String b EmptyString)%string.
  rewrite ends_by_snoc. exact Hb.
Qed.

(** X14. [clean_quoted_win_path] takes off one pair of braces and then one
    pair of quotes, whatever is inside: a text between double quotes or
    between single quotes gives the text, also when the quotes are
    themselves between braces, and a text between braces that is not
    itself between two quotes of one kind gives the text. *)
Theorem clean_quoted_win_path_unwraps (p : string) :
  clean_quoted_win_path (wrap Py.dquote Py.dquote p) = p
  /\ clean_quoted_win_path (wrap squote squote p) = p
  /\ clean_quoted_win_path (wrap "{" "}" (wrap Py.dquote Py.dquote p)) = p
  /\ clean_quoted_win_path (wrap "{" "}" (wrap squote squote p)) = p
  /\ clean_quoted_win_path (wrap "{" "}" p)
     = if wrapped_in Py.dquote Py.dquote p || wrapped_in squote squote p
       then inner_slice p else p.
Proof.
  unfold clean_quoted_win_path.
  rewrite !strip_wrap by reflexivity.
  repeat (progress (rewrite ?wrapped_in_wrap, ?inner_slice_wrap;
                    cbv [Py.dquote squote Ascii.eqb Bool.eqb andb orb])).
  repeat split.
Qed.

Lemma peeled_refl (s : string) : peeled s s.
Proof.
  exists EmptyString, EmptyString. split; [|split; reflexivity].
  simpl. induction s as [|c s IH]; simpl; congruence.
Qed.

Lemma peeled_trans (a b c : string) : peeled a b -> peeled b c -> peeled a c.
Proof.
  intros (l1 & r1 & -> & Hl1 & Hr1) (l2 & r2 & -> & Hl2 & Hr2).
  exists (l2 ++ l1)%string, (r1 ++ r2)%string.
  rewrite !all_chars_append, Hl1, Hl2, Hr1, Hr2. split; [|split; reflexivity].
  rewrite !append_assoc. reflexivity.
Qed.

Lemma chop_last_split (s : string) :
  s = EmptyString
  \/ exists c, s = (chop_last s ++ String c EmptyString)%string
               /\ forall f, Py.ends_by f s = f c.
Proof.
  induction s as [|d s IH]; [left; reflexivity|]. right.
  destruct IH as [->|(c & Hs & Hf)].
  - exists d. split; [reflexivity | intros f; reflexivity].
  - exists c. destruct s as [|e s]; [discriminate|].
    cbn [chop_last String.append]. split; [f_equal; exact Hs|].
    intros f. rewrite <- (Hf f). reflexivity.
Qed.

Lemma peeled_inner_slice (a b : ascii) (s : string) :
  is_wrapping a = true -> is_wrapping b = true ->
  wrapped_in a b s = true -> peeled (inner_slice s) s.
Proof.
  intros Ha Hb [Hs He]%andb_true_iff.
  destruct s as [|c s]; [discriminate|].
  cbn [Py.starts_by] in Hs. apply Ascii.eqb_eq in Hs. subst c.
  cbn [inner_slice]. destruct (chop_last_split s) as [->|(c & Hc & Hf)].
  - exists (String a EmptyString), EmptyString. cbn. rewrite Ha. auto.
  - exists (String a EmptyString), (String c EmptyString).
    assert (Hcb : c = b).
    { destruct s as [|e s]; [destruct (chop_last EmptyString); discriminate|].
      change (Py.ends_by (is_char b) (String e s) = true) in He.
      rewrite Hf in He. apply Ascii.eqb_eq in He. exact He. }
    subst c. cbn. rewrite Ha, Hb. split; [f_equal; exact Hc | auto].
Qed.

(** X15. [clean_quoted_win_path] only removes from the two ends, and only
    white space, braces and quotes: the text it is given is what it
    returns with such characters before and after it. *)
Theorem clean_quoted_win_path_peels (s : string) : peeled (clean_quoted_win_path s) s.
Proof.
  unfold clean_quoted_win_path.
  assert (H1 : peeled (Py.strip s) s).
  { destruct (strip_by_split Py.isspace s) as (l & r & Hs & Hl & Hr).
    exists l, r. split; [exact Hs|].
    split; [revert Hl | revert Hr]; apply all_chars_impl;
      intros c Hc; unfold is_wrapping; rewrite Hc; reflexivity. }
  set (t := Py.strip s) in *.
  assert (H2 : peeled (if wrapped_in "{" "}" t then inner_slice t else t) s).
  { destruct (wrapped_in "{" "}" t) eqn:E; [|exact H1].
    apply (peeled_trans _ t); [|exact H1].
    apply (peeled_inner_slice "{" "}"); [reflexivity | reflexivity | exact E]. }
  set (u := if wrapped_in "{" "}" t then inner_slice t else t) in *.
  destruct (wrapped_in Py.dquote Py.dquote u) eqn:Ed; cbn [orb].
  - apply (peeled_trans _ u); [|exact H2].
    apply (peeled_inner_slice Py.dquote Py.dquote); [reflexivity | reflexivity | exact Ed].
  - destruct (wrapped_in squote squote u) eqn:Es; [|exact H2].
    apply (peeled_trans _ u); [|exact H2].
    apply (peeled_inner_slice squote squote); [reflexivity | reflexivity | exact Es].
Qed.

(** ** [shlex.split] and [parse_dnd_list] *)

Lemma append_nil_r (s : string) : (s ++ EmptyString)%string = s.
Proof. induction s as [|c s IH]; simpl; congruence. Qed.

Lemma tokens_word_chars (esc : Shlex.state) (q : bool) (tok p tail : string) :
  Py.all_chars word_char p = true ->
  Shlex.tokens Shlex.Word esc q tok (p ++ tail)
  = Shlex.tokens Shlex.Word esc q (tok ++ p) tail.
Proof.
  revert tok. induction p as [|c p IH]; intros tok Hp.
  - rewrite append_nil_r. reflexivity.
  - cbn [Py.all_chars] in Hp. apply andb_true_iff in Hp as [Hc Hp].
    unfold word_char in Hc.
    apply andb_true_iff in Hc as [[Hw Hq]%andb_true_iff He].
    apply negb_true_iff in Hw, Hq, He.
    cbn [String.append Shlex.tokens]. rewrite Hw, Hq, He.
    rewrite (IH _ Hp), append_assoc. reflexivity.
Qed.

Lemma tokens_quoted_chars (esc : Shlex.state) (q : bool) (tok p tail : string) :
  Py.all_chars (fun c => negb (is_char Py.dquote c) && negb (Shlex.escape c)) p = true ->
  Shlex.tokens (Shlex.Quote Py.dquote) esc q tok (p ++ String Py.dquote tail)
  = Shlex.tokens Shlex.Word esc true (tok ++ p) tail.
Proof.
  revert q tok. induction p as [|c p IH]; intros q tok Hp.
  - rewrite append_nil_r. reflexivity.
  - cbn [Py.all_chars] in Hp. apply andb_true_iff in Hp as [Hc Hp].
    apply andb_true_iff in Hc as [Hd He]. apply negb_true_iff in Hd, He.
    unfold is_char in Hd.
    cbn [String.append Shlex.tokens]. rewrite Hd, He. cbn [andb].
    rewrite (IH _ _ Hp), append_assoc. reflexivity.
Qed.

Lemma replace_char_append (old new : ascii) (a b : string) :
  replace_char old new (a ++ b) = (replace_char old new a ++ replace_char old new b)%string.
Proof. induction a as [|c a IH]; simpl; [reflexivity | rewrite IH; reflexivity]. Qed.

Lemma normalized_append (a b : string) :
  normalized (a ++ b) = (normalized a ++ normalized b)%string.
Proof. unfold normalized. rewrite !replace_char_append. reflexivity. Qed.

Lemma normalized_no_brace (s : string) :
  Py.all_chars (fun c => negb (is_brace c)) s = true -> normalized s = s.
Proof.
  unfold normalized. induction s as [|c s IH]; [reflexivity|].
  cbn [Py.all_chars replace_char]. intros [Hc Hs]%andb_true_iff.
  rewrite (IH Hs). unfold is_brace, is_char in Hc.
  apply negb_true_iff, orb_false_iff in Hc as [H1 H2]. rewrite H1, H2. reflexivity.
Qed.

(** The lexer on one well-formed item followed by [tail]: it is in a word,
    the item read. *)
Lemma tokens_element (d : dropped) (tail : string) :
  well_formed d ->
  Shlex.tokens Shlex.Blank Shlex.Blank false EmptyString (normalized (drop_element d) ++ tail)
  = Shlex.tokens Shlex.Word Shlex.Blank
      (match d with Braced _ => true | Bare _ => false end) (dropped_path d) tail.
Proof.
  destruct d as [p|p]; cbn [well_formed drop_element dropped_path].
  - intros Hp.
    assert (Hnb : Py.all_chars (fun c => negb (is_brace c)) p = true).
    { revert Hp. apply all_chars_impl. intros c [_ Hc]%andb_true_iff. exact Hc. }
    unfold wrap. change (String "{" (p ++ String "}" EmptyString))%string
      with (String "{" EmptyString ++ p ++ String "}" EmptyString)%string.
    rewrite !normalized_append, (normalized_no_brace p Hnb).
    change (normalized (String "{" EmptyString)) with (String Py.dquote EmptyString).
    change (normalized (String "}" EmptyString)) with (String Py.dquote EmptyString).
    rewrite !append_assoc. cbn [String.append Shlex.tokens].
    change (Shlex.whitespace Py.dquote) with false.
    change (Shlex.escape Py.dquote) with false.
    change (Shlex.quotes Py.dquote) with true. cbn iota.
    apply (tokens_quoted_chars Shlex.Blank false EmptyString p tail).
    revert Hp. apply all_chars_impl. intros c [Hc _]%andb_true_iff. exact Hc.
  - intros [Hne Hp].
    assert (Hnb : Py.all_chars (fun c => negb (is_brace c)) p = true).
    { revert Hp. apply all_chars_impl. intros c [_ Hc]%andb_true_iff. exact Hc. }
    assert (Hw : Py.all_chars word_char p = true).
    { revert Hp. apply all_chars_impl. intros c [Hc _]%andb_true_iff. exact Hc. }
    rewrite (normalized_no_brace p Hnb).
    destruct p as [|c p]; [discriminate|].
    cbn [Py.all_chars] in Hw. apply andb_true_iff in Hw as [Hc Hw].
    pose proof Hc as Hc'. unfold word_char in Hc'.
    apply andb_true_iff in Hc' as [[H1 H2]%andb_true_iff H3].
    apply negb_true_iff in H1, H2, H3.
    cbn [String.append Shlex.tokens]. rewrite H1, H2, H3.
    apply (tokens_word_chars Shlex.Blank false (String c EmptyString) p tail Hw).
Qed.

Lemma join_cons (sep : ascii) (x y : string) (l : list string) :
  Py.join sep (x :: y :: l) = (x ++ (String sep EmptyString ++ Py.join sep (y :: l)))%string.
Proof. reflexivity. Qed.

Lemma split_drop_text (items : list dropped) :
  Forall well_formed items ->
  Shlex.split (normalized (drop_text items)) = Ok (map dropped_path items).
Proof.
  unfold Shlex.split, drop_text. induction 1 as [|d items Hd _ IH]; [reflexivity|].
  destruct items as [|d2 items].
  - cbn [map Py.join]. rewrite <- (append_nil_r (normalized (drop_element d))).
    rewrite (tokens_element d EmptyString Hd). cbn [Shlex.tokens].
    unfold Shlex.last_token. destruct d as [p|p]; [reflexivity|].
    cbn [dropped_path]. destruct Hd as [-> _]. reflexivity.
  - set (rest := d2 :: items) in *. cbn [map]. subst rest.
    change (map drop_element (d2 :: items))
      with (drop_element d2 :: map drop_element items) in *.
    rewrite join_cons, !normalized_append.
    change (normalized (String " " EmptyString)) with (String " " EmptyString).
    rewrite (tokens_element d _ Hd). cbn [String.append Shlex.tokens].
    change (Shlex.whitespace " ") with true. cbn iota.
    replace (Py.truthy (dropped_path d) || match d with Braced _ => true | Bare _ => false end)
      with true.
    + rewrite IH. reflexivity.
    + destruct d as [p|p]; [rewrite orb_true_r; reflexivity|].
      cbn [dropped_path]. destruct Hd as [-> _]. reflexivity.
Qed.

(** X16. The text of a drop is read back as its items: for items separated
    by one space, each either as it is (not empty, no white space, quote,
    backslash or brace in it) or between braces (no double quote, backslash
    or brace in it, white space allowed), [parse_dnd_list] returns the
    items in order, each passed through [clean_quoted_win_path]; items that
    this function leaves alone come back exactly. *)
Theorem parse_dnd_list_reads_items (items : list dropped) :
  Forall well_formed items ->
  parse_dnd_list (drop_text items)
  = map (fun d => clean_quoted_win_path (dropped_path d)) items
  /\ (Forall (fun d => clean_quoted_win_path (dropped_path d) = dropped_path d) items ->
      parse_dnd_list (drop_text items) = map dropped_path items).
Proof.
  intros Hwf. unfold parse_dnd_list. fold (normalized (drop_text items)).
  rewrite (split_drop_text items Hwf), map_map. split; [reflexivity|].
  intros Hclean. clear Hwf. induction Hclean as [|d items Hd _ IH]; [reflexivity|].
  cbn [map]. rewrite Hd, IH. reflexivity.
Qed.

Lemma parse_dnd_list_reads_items_sample :
  Forall well_formed [Braced "C:/my music/a b.mp3"; Bare "C:/v.mp4"]
  /\ drop_text [Braced "C:/my music/a b.mp3"; Bare "C:/v.mp4"]
     = "{C:/my music/a b.mp3} C:/v.mp4"
  /\ parse_dnd_list "{C:/my music/a b.mp3} C:/v.mp4" = ["C:/my music/a b.mp3"; "C:/v.mp4"].
Proof.
  assert (Hwf : Forall well_formed [Braced "C:/my music/a b.mp3"; Bare "C:/v.mp4"])
    by (repeat constructor).
  split; [exact Hwf|]. split; [reflexivity|].
  destruct (parse_dnd_list_reads_items _ Hwf) as [_ Hitems].
  apply Hitems. repeat constructor.
Defined.

Lemma unescape_pending_nonempty (s t : string) :
  unescape_from true s = Some t -> Py.truthy t = true.
Proof.
  destruct s as [|c s]; [discriminate|]. cbn [unescape_from].
  destruct (unescape_from false s); [intros [= <-]; reflexivity | discriminate].
Qed.

Lemma tokens_unescape (s : string) :
  Py.all_chars (fun c => negb (Shlex.whitespace c) && negb (Shlex.quotes c)) s = true ->
  (forall esc q tok,
      Shlex.tokens Shlex.Word esc q tok s
      = match unescape_from false s with
        | Some t => Ok (Shlex.last_token q (tok ++ t))
        | None => Raise (Exn ValueError "No escaped character")
        end)
  /\ (forall q tok,
        Shlex.tokens Shlex.Escape Shlex.Word q tok s
        = match unescape_from true s with
          | Some t => Ok (Shlex.last_token q (tok ++ t))
          | None => Raise (Exn ValueError "No escaped character")
          end).
Proof.
  induction s as [|c s IH]; intros Hs.
  - split; intros; cbn; [rewrite append_nil_r|]; reflexivity.
  - cbn [Py.all_chars] in Hs. apply andb_true_iff in Hs as [Hc Hs].
    apply andb_true_iff in Hc as [Hw Hq]. apply negb_true_iff in Hw, Hq.
    destruct (IH Hs) as [IHw IHe]. split.
    + intros esc q tok. cbn [Shlex.tokens unescape_from]. rewrite Hw, Hq.
      destruct (Shlex.escape c); [apply IHe|].
      rewrite IHw. destruct (unescape_from false s) as [t|]; [|reflexivity].
      cbn. rewrite append_assoc. reflexivity.
    + intros q tok. cbn [Shlex.tokens unescape_from Shlex.keeps_backslash].
      rewrite IHw. destruct (unescape_from false s) as [t|]; [|reflexivity].
      cbn. rewrite append_assoc. reflexivity.
Qed.

(** X17. An item that is not between braces loses its backslashes: for a
    text without white space, quote or brace, [parse_dnd_list] returns one
    item, the text with each backslash dropped and the character after it
    kept (so that two backslashes give one); when the text ends with a
    backslash that has nothing after it, the lexer fails and the one item
    is the text as it was.  Either is passed through
    [clean_quoted_win_path]. *)
Theorem parse_dnd_list_backslashes (s : string) :
  Py.truthy s = true ->
  Py.all_chars (fun c => negb (Shlex.whitespace c) && negb (Shlex.quotes c)
                         && negb (is_brace c)) s = true ->
  parse_dnd_list s = [clean_quoted_win_path (default s (unescape s))].
Proof.
  intros Hne Hs. unfold parse_dnd_list. fold (normalized s).
  assert (Hnb : Py.all_chars (fun c => negb (is_brace c)) s = true).
  { revert Hs. apply all_chars_impl. intros c [_ Hc]%andb_true_iff. exact Hc. }
  assert (Hlex : Py.all_chars (fun c => negb (Shlex.whitespace c) && negb (Shlex.quotes c)) s
                 = true).
  { revert Hs. apply all_chars_impl. intros c [Hc _]%andb_true_iff. exact Hc. }
  rewrite (normalized_no_brace s Hnb). unfold Shlex.split, unescape.
  destruct s as [|c s]; [discriminate|].
  cbn [Py.all_chars] in Hlex. apply andb_true_iff in Hlex as [Hc Hlex].
  apply andb_true_iff in Hc as [Hw Hq]. apply negb_true_iff in Hw, Hq.
  destruct (tokens_unescape s Hlex) as [Hword Hesc].
  cbn [Shlex.tokens unescape_from]. rewrite Hw, Hq.
  destruct (Shlex.escape c).
  - rewrite Hesc. destruct (unescape_from true s) as [t|] eqn:Ht; [|reflexivity].
    unfold Shlex.last_token. cbn [String.append default from_option id].
    rewrite (unescape_pending_nonempty s t Ht). reflexivity.
  - rewrite Hword. destruct (unescape_from false s) as [t|]; reflexivity.
Qed.

Lemma parse_dnd_list_backslashes_sample :
  Py.truthy "C:\Users\me\a.mp3" = true
  /\ parse_dnd_list "C:\Users\me\a.mp3" = ["C:Usersmea.mp3"]
  /\ parse_dnd_list "C:\out\" = ["C:\out\"].
Proof.
  split; [reflexivity|]. split.
  - rewrite (parse_dnd_list_backslashes "C:\Users\me\a.mp3" eq_refl eq_refl). reflexivity.
  - rewrite (parse_dnd_list_backslashes "C:\out\" eq_refl eq_refl). reflexivity.
Defined.

Lemma tokens_open_quote (v : string) :
  Py.all_chars (fun c => negb (is_char squote c)) v = true ->
  forall esc q tok,
    Shlex.tokens (Shlex.Quote squote) esc q tok v
    = Raise (Exn ValueError "No closing quotation").
Proof.
  induction v as [|c v IH]; intros Hv esc q tok; [reflexivity|].
  cbn [Py.all_chars] in Hv. apply andb_true_iff in Hv as [Hc Hv].
  apply negb_true_iff in Hc. unfold is_char in Hc.
  cbn [Shlex.tokens]. rewrite Hc.
  change (Ascii.eqb squote Py.dquote) with false. rewrite andb_false_r.
  apply IH, Hv.
Qed.

Lemma tokens_before_quote (u v : string) :
  Py.all_chars (fun c => negb (Shlex.quotes c) && negb (Shlex.escape c)) u = true ->
  (forall esc q tok,
      Shlex.tokens (Shlex.Quote squote) esc q tok v
      = Raise (Exn ValueError "No closing quotation")) ->
  forall esc q tok,
    Shlex.tokens Shlex.Blank esc q tok (u ++ String squote v)
    = Raise (Exn ValueError "No closing quotation")
    /\ Shlex.tokens Shlex.Word esc q tok (u ++ String squote v)
       = Raise (Exn ValueError "No closing quotation").
Proof.
  intros Hu Hv. induction u as [|c u IH]; intros esc q tok.
  - cbn [String.append Shlex.tokens].
    change (Shlex.whitespace squote) with false.
    change (Shlex.escape squote) with false.
    change (Shlex.quotes squote) with true. cbn iota. split; apply Hv.
  - cbn [Py.all_chars] in Hu. apply andb_true_iff in Hu as [Hc Hu].
    apply andb_true_iff in Hc as [Hq He]. apply negb_true_iff in Hq, He.
    specialize (IH Hu). cbn [String.append Shlex.tokens]. rewrite Hq, He.
    destruct (Shlex.whitespace c).
    + destruct (Py.truthy tok || q).
      * rewrite (proj1 (IH Shlex.Blank false EmptyString)). split; reflexivity.
      * split; apply IH.
    + split; apply IH.
Qed.

(** X18. One apostrophe makes a drop a single item: for a text with a
    single quote that is not closed after it, and before it no quote,
    backslash or brace, the lexer fails and [parse_dnd_list] returns the
    whole text as one item (passed through [clean_quoted_win_path]), white
    space and further files included. *)
Theorem parse_dnd_list_open_quote (u v : string) :
  Py.all_chars (fun c => negb (Shlex.quotes c) && negb (Shlex.escape c)
                         && negb (is_brace c)) u = true ->
  Py.all_chars (fun c => negb (is_char squote c)) v = true ->
  parse_dnd_list (u ++ String squote v)
  = [clean_quoted_win_path (u ++ String squote v)].
Proof.
  intros Hu Hv. unfold parse_dnd_list. fold (normalized (u ++ String squote v)).
  assert (Hnb : Py.all_chars (fun c => negb (is_brace c)) u = true).
  { revert Hu. apply all_chars_impl. intros c [_ Hc]%andb_true_iff. exact Hc. }
  assert (Hlex : Py.all_chars (fun c => negb (Shlex.quotes c) && negb (Shlex.escape c)) u
                 = true).
  { revert Hu. apply all_chars_impl. intros c [Hc _]%andb_true_iff. exact Hc. }
  change (u ++ String squote v)%string
    with (u ++ (String squote EmptyString ++ v))%string at 1.
  rewrite !normalized_append, (normalized_no_brace u Hnb).
  change (normalized (String squote EmptyString)) with (String squote EmptyString).
  cbn [String.append].
  assert (Hv' : Py.all_chars (fun c => negb (is_char squote c)) (normalized v) = true).
  { clear -Hv. unfold normalized. induction v as [|c v IH]; [reflexivity|].
    cbn [Py.all_chars replace_char] in Hv |- *. apply andb_true_iff in Hv as [Hc Hv].
    rewrite (IH Hv), andb_true_r.
    destruct (Ascii.eqb c "{"); [reflexivity|].
    destruct (Ascii.eqb c "}"); [reflexivity | exact Hc]. }
  unfold Shlex.split.
  rewrite (proj1 (tokens_before_quote u (normalized v) Hlex (tokens_open_quote _ Hv')
                    Shlex.Blank false EmptyString)).
  reflexivity.
Qed.

Lemma parse_dnd_list_open_quote_sample :
  parse_dnd_list "C:/John's.mp3 C:/v.mp4" = ["C:/John's.mp3 C:/v.mp4"].
Proof.
  exact (parse_dnd_list_open_quote "C:/John" "s.mp3 C:/v.mp4" eq_refl eq_refl).
Defined.

Lemma tokens_blank_whitespace (s : string) :
  Py.all_chars Shlex.whitespace s = true ->
  forall esc, Shlex.tokens Shlex.Blank esc false EmptyString s = Ok [].
Proof.
  induction s as [|c s IH]; intros Hs esc; [reflexivity|].
  cbn [Py.all_chars] in Hs. apply andb_true_iff in Hs as [Hc Hs].
  cbn [Shlex.tokens Py.truthy orb]. rewrite Hc. apply IH, Hs.
Qed.

Lemma whitespace_no_brace (c : ascii) : Shlex.whitespace c = true -> negb (is_brace c) = true.
Proof.
  unfold is_brace, is_char. intros Hc.
  destruct (Ascii.eqb_spec c "{") as [->|_]; [discriminate|].
  destruct (Ascii.eqb_spec c "}") as [->|_]; [discriminate|]. reflexivity.
Qed.

Lemma truthy_snoc (t : string) (c : ascii) : Py.truthy (t ++ String c EmptyString) = true.
Proof. destruct t; reflexivity. Qed.

(** Once a token is under way the lexer returns at least one token, or
    raises. *)
Lemma tokens_started (s : string) :
  forall st esc quoted token,
    token_started st quoted token = true ->
    Shlex.tokens st esc quoted token s <> Ok [].
Proof.
  induction s as [|c s IH]; intros st esc quoted token Hst.
  - destruct st; cbn [Shlex.tokens token_started] in *; try discriminate;
      unfold Shlex.last_token; destruct quoted, (Py.truthy token); discriminate.
  - destruct st as [| |q|]; cbn [Shlex.tokens token_started] in *.
    + destruct (Shlex.whitespace c).
      * rewrite Hst.
        destruct (Shlex.tokens Shlex.Blank Shlex.Blank false EmptyString s); discriminate.
      * destruct (Shlex.escape c); [apply IH; reflexivity|].
        destruct (Shlex.quotes c); apply IH; reflexivity.
    + destruct (Shlex.whitespace c).
      * rewrite Hst.
        destruct (Shlex.tokens Shlex.Blank Shlex.Blank false EmptyString s); discriminate.
      * destruct (Shlex.quotes c); [apply IH; reflexivity|].
        destruct (Shlex.escape c); [apply IH; reflexivity|].
        apply IH. cbn [token_started]. rewrite truthy_snoc. reflexivity.
    + destruct (Ascii.eqb c q); [apply IH; cbn [token_started]; apply orb_true_r|].
      destruct (Shlex.escape c && Ascii.eqb q Py.dquote); apply IH; reflexivity.
    + apply IH. destruct esc; cbn [token_started]; try reflexivity;
        rewrite truthy_snoc; reflexivity.
Qed.

Lemma tokens_blank_other (s : string) :
  Py.all_chars Shlex.whitespace s = false ->
  forall esc, Shlex.tokens Shlex.Blank esc false EmptyString s <> Ok [].
Proof.
  induction s as [|c s IH]; intros Hs esc; [discriminate|].
  cbn [Py.all_chars] in Hs. cbn [Shlex.tokens Py.truthy orb].
  destruct (Shlex.whitespace c); [apply IH, Hs|].
  destruct (Shlex.escape c); [apply tokens_started; reflexivity|].
  destruct (Shlex.quotes c); apply tokens_started; reflexivity.
Qed.

Lemma whitespace_normalized (s : string) :
  Py.all_chars Shlex.whitespace (normalized s) = Py.all_chars Shlex.whitespace s.
Proof.
  unfold normalized. induction s as [|c s IH]; [reflexivity|].
  cbn [replace_char Py.all_chars]. rewrite IH.
  destruct (Ascii.eqb_spec c "{") as [->|_]; [reflexivity|].
  destruct (Ascii.eqb_spec c "}") as [->|_]; reflexivity.
Qed.

Section DropHandlers.
Context {os : OsPath} {js : JsonLib}.

(** X19. A drop that carries no file does nothing.  [parse_dnd_list]
    returns no item exactly for a text made of the characters the lexer
    takes for white space, which are space, tab, carriage return and line
    feed (the empty text included): any other character, other white space
    too, gives at least one item.  For such a text each of the four drop
    handlers leaves the form and the files as they were. *)
Theorem empty_drop_does_nothing (self : App) (w : world) (data : string) :
  (parse_dnd_list data = [] <-> Py.all_chars Shlex.whitespace data = true)
  /\ (Py.all_chars Shlex.whitespace data = true ->
      on_drop_audio self data = self
      /\ on_drop_video self data = self
      /\ on_drop_dir self w data = Ok (self, w)
      /\ on_drop_any self w data = Ok (self, w)).
Proof.
  assert (Hparse : Py.all_chars Shlex.whitespace data = true -> parse_dnd_list data = []).
  { intros Hws. unfold parse_dnd_list. fold (normalized data).
    rewrite (normalized_no_brace data (all_chars_impl _ _ data whitespace_no_brace Hws)).
    unfold Shlex.split. rewrite (tokens_blank_whitespace data Hws). reflexivity. }
  split; [split; [|exact Hparse]|].
  - intros Hnil. destruct (Py.all_chars Shlex.whitespace data) eqn:Hws; [reflexivity|].
    exfalso. rewrite <- whitespace_normalized in Hws.
    pose proof (tokens_blank_other _ Hws Shlex.Blank) as Hsome.
    unfold parse_dnd_list in Hnil. fold (normalized data) in Hnil.
    unfold Shlex.split in Hnil.
    destruct (Shlex.tokens Shlex.Blank Shlex.Blank false EmptyString (normalized data))
      as [[|item items]|e]; [apply Hsome; reflexivity | discriminate | discriminate].
  - intros Hws. unfold on_drop_audio, on_drop_video, on_drop_dir, on_drop_any.
    rewrite (Hparse Hws). repeat split; reflexivity.
Qed.

(** X20. A drop of several files on the audio or the video field keeps the
    first one: for items separated by one space, each as it is or between
    braces, [on_drop_audio] and [on_drop_video] set their field to the
    first item, passed through [clean_quoted_win_path], and change no other
    field. *)
Theorem on_drop_field_takes_first (self : App) (d : dropped) (items : list dropped) :
  Forall well_formed (d :: items) ->
  on_drop_audio self (drop_text (d :: items))
  = set_audio_var self (clean_quoted_win_path (dropped_path d))
  /\ on_drop_video self (drop_text (d :: items))
     = set_video_var self (clean_quoted_win_path (dropped_path d)).
Proof.
  intros Hwf. unfold on_drop_audio, on_drop_video, parse_dnd_list.
  fold (normalized (drop_text (d :: items))).
  rewrite (split_drop_text _ Hwf). split; reflexivity.
Qed.

End DropHandlers.

Lemma empty_drop_does_nothing_sample :
  (parse_dnd_list "  " = []
   /\ on_drop_audio sample_app "  " = sample_app
   /\ on_drop_video sample_app "  " = sample_app
   /\ on_drop_dir (js:=flat_json) sample_app sample_world "  " = Ok (sample_app, sample_world)
   /\ on_drop_any (os:=posixpath) (js:=flat_json) sample_app sample_world "  "
      = Ok (sample_app, sample_world))
  /\ Py.isspace "011" = true
  /\ parse_dnd_list (String "011" EmptyString) = [EmptyString]
  /\ on_drop_audio sample_app (String "011" EmptyString) = set_audio_var sample_app EmptyString.
Proof.
  destruct (empty_drop_does_nothing (os:=posixpath) (js:=flat_json) sample_app sample_world "  ")
    as [[_ Hparse] Hsame].
  split; [split; [exact (Hparse eq_refl) | exact (Hsame eq_refl)]|].
  repeat split.
Defined.

Lemma on_drop_field_takes_first_sample :
  on_drop_audio blank_app "{C:/my music/a b.mp3} C:/v.mp4"
  = set_audio_var blank_app "C:/my music/a b.mp3"
  /\ on_drop_video blank_app "{C:/my music/a b.mp3} C:/v.mp4"
     = set_video_var blank_app "C:/my music/a b.mp3".
Proof.
  exact (on_drop_field_takes_first blank_app (Braced "C:/my music/a b.mp3") [Bare "C:/v.mp4"]
           ltac:(repeat constructor)).
Defined.
